(** * grist2: the client transport and the resource proxies

    A shallow embedding of [grist2/utils.py] and [grist2/client.py].

    Python values are a first-order datatype ([value]); Python strings are
    byte strings (UTF-8), which is exact for everything the code does with
    them, since it only ever looks for the ASCII character '/' and the ASCII
    word SQLITE_BUSY.  Effects (the HTTP session, the log, [sleep], the
    mutable dictionaries handed in by a caller) live in an explicit [world]
    threaded through a small state-and-exception monad. *)

From Stdlib Require Import ZArith Strings.Ascii Numbers.DecimalString.
From stdpp Require Import base strings list gmap.

#[local] Set Warnings "-register-all".

Local Open Scope Z_scope.
Local Open Scope string_scope.

(** ** Strings *)

Module Str.

Definition is_slash (c : ascii) : bool := Ascii.eqb c "/"%char.

(** [s.lstrip('/')] *)
Fixpoint lstrip (s : string) : string :=
  match s with
  | String c s' => if is_slash c then lstrip s' else s
  | EmptyString => EmptyString
  end.

(** [s.rstrip('/')] *)
Fixpoint rstrip (s : string) : string :=
  match s with
  | String c s' =>
      match rstrip s' with
      | EmptyString => if is_slash c then EmptyString else String c EmptyString
      | r => String c r
      end
  | EmptyString => EmptyString
  end.

Fixpoint has_slash_in (s : string) : bool :=
  match s with
  | String c s' => is_slash c || has_slash_in s'
  | EmptyString => false
  end.

(** The part of [s] before its last '/', when it has one. *)
Fixpoint rsplit_last (s : string) : option string :=
  match s with
  | String c s' =>
      match rsplit_last s' with
      | Some h => Some (String c h)
      | None => if is_slash c then Some EmptyString else None
      end
  | EmptyString => None
  end.

(** [s.rsplit('/', 1)[0]] *)
Definition rsplit1_head (s : string) : string :=
  match rsplit_last s with
  | Some h => h
  | None => s
  end.

(** [s.split('/')[-1]] *)
Fixpoint split_last (s : string) : string :=
  match s with
  | String c s' =>
      if has_slash_in s' then split_last s'
      else if is_slash c then s' else s
  | EmptyString => EmptyString
  end.

(** [s[n:]] *)
Fixpoint drop (n : nat) (s : string) : string :=
  match n, s with
  | S n', String _ s' => drop n' s'
  | _, _ => s
  end.

(** [sub in s] *)
Fixpoint contains (sub s : string) : bool :=
  String.prefix sub s ||
  match s with
  | String _ s' => contains sub s'
  | EmptyString => false
  end.

(** [str(n)] for an integer *)
Definition of_Z (n : Z) : string := NilZero.string_of_int (Z.to_int n).

Definition concat (l : list string) : string := foldr String.append "" l.

(** [sep.join(l)] *)
Fixpoint join (sep : string) (l : list string) : string :=
  match l with
  | [] => ""
  | x :: rest =>
      match rest with
      | [] => x
      | _ => x +:+ sep +:+ join sep rest
      end
  end.

(** The double quote character. *)
Definition dquote : ascii := Ascii.ascii_of_nat 34.

Definition hex_digit (n : N) : ascii :=
  Ascii.ascii_of_N (if (n <? 10)%N then 48 + n else 87 + n).

Definition hex2 (c : ascii) : string :=
  let n := Ascii.N_of_ascii c in
  String (hex_digit (n / 16)) (String (hex_digit (n mod 16)) "").

Definition is_control (c : ascii) : bool :=
  let n := Ascii.N_of_ascii c in (n <? 32)%N || (n =? 127)%N.

End Str.

(** ** Python values

    The values that cross the API: what [response.json()] returns, what a
    caller passes as a path segment, a query parameter or a JSON payload.
    A float is kept as the two observations the code can make of it: its
    truth value and its printed form. *)

Record pyfloat := PyFloat { float_nonzero : bool; float_repr : string }.

Inductive value :=
  | VNone
  | VBool (b : bool)
  | VInt (n : Z)
  | VFloat (f : pyfloat)
  | VStr (s : string)
  | VList (l : list value)
  | VDict (d : list (string * value)).

(** A [dict] keeps insertion order; its keys are unique. *)
Abbreviation pydict := (list (string * value)).

(** [d.get(k)], with [None] for a missing key. *)
Fixpoint dict_lookup (k : string) (d : pydict) : option value :=
  match d with
  | [] => None
  | (k', v) :: d' => if String.eqb k k' then Some v else dict_lookup k d'
  end.

Definition dict_get (k : string) (d : pydict) : value :=
  default VNone (dict_lookup k d).

(** [del d[k]] *)
Definition dict_remove (k : string) (d : pydict) : pydict :=
  filter (fun kv => negb (String.eqb k kv.1)) d.

(** [d[k] = v]: an existing key keeps its position. *)
Fixpoint dict_set (k : string) (v : value) (d : pydict) : pydict :=
  match d with
  | [] => [(k, v)]
  | (k', v') :: d' =>
      if String.eqb k k' then (k, v) :: d' else (k', v') :: dict_set k v d'
  end.

Definition dict_keys (d : pydict) : list string := map fst d.

(** [bool(v)] *)
Definition truthy (v : value) : bool :=
  match v with
  | VNone => false
  | VBool b => b
  | VInt n => negb (Z.eqb n 0)
  | VFloat f => float_nonzero f
  | VStr s => negb (String.eqb s "")
  | VList l => match l with [] => false | _ => true end
  | VDict d => match d with [] => false | _ => true end
  end.

(** [repr(s)] for a string: single quotes unless the string has a single
    quote and no double quote; backslash, the quote and control characters
    are escaped. *)
Definition repr_char (quote c : ascii) : string :=
  if Ascii.eqb c "\"%char then "\\"
  else if Ascii.eqb c quote then String "\"%char (String c "")
  else if Ascii.eqb c "010"%char then "\n"
  else if Ascii.eqb c "013"%char then "\r"
  else if Ascii.eqb c "009"%char then "\t"
  else if Str.is_control c then "\x" +:+ Str.hex2 c
  else String c "".

Fixpoint repr_chars (quote : ascii) (s : string) : string :=
  match s with
  | String c s' => repr_char quote c +:+ repr_chars quote s'
  | EmptyString => EmptyString
  end.

Definition repr_str (s : string) : string :=
  let quote : ascii :=
    if Str.contains "'" s && negb (Str.contains (String Str.dquote "") s)
    then Str.dquote else "'"%char in
  String quote (repr_chars quote s) +:+ String quote "".

(** [repr(v)] *)
Fixpoint py_repr (v : value) : string :=
  match v with
  | VNone => "None"
  | VBool b => if b then "True" else "False"
  | VInt n => Str.of_Z n
  | VFloat f => float_repr f
  | VStr s => repr_str s
  | VList l => "[" +:+ Str.join ", " (map py_repr l) +:+ "]"
  | VDict d =>
      "{" +:+ Str.join ", "
                (map (fun kv => repr_str kv.1 +:+ ": " +:+ py_repr kv.2) d)
      +:+ "}"
  end.

(** [str(v)] *)
Definition py_str (v : value) : string :=
  match v with
  | VStr s => s
  | _ => py_repr v
  end.

(** [json.dumps(v)] with its default separators and [ensure_ascii]; exact on
    ASCII strings. *)
Definition json_char (c : ascii) : string :=
  if Ascii.eqb c "\"%char then "\\"
  else if Ascii.eqb c Str.dquote then String "\"%char (String c "")
  else if Ascii.eqb c "010"%char then "\n"
  else if Ascii.eqb c "013"%char then "\r"
  else if Ascii.eqb c "009"%char then "\t"
  else if Ascii.eqb c "008"%char then "\b"
  else if Ascii.eqb c "012"%char then "\f"
  else if Str.is_control c then "\u00" +:+ Str.hex2 c
  else String c "".

Fixpoint json_chars (s : string) : string :=
  match s with
  | String c s' => json_char c +:+ json_chars s'
  | EmptyString => EmptyString
  end.

Definition json_string (s : string) : string :=
  String Str.dquote (json_chars s) +:+ String Str.dquote "".

Fixpoint json_dumps (v : value) : string :=
  match v with
  | VNone => "null"
  | VBool b => if b then "true" else "false"
  | VInt n => Str.of_Z n
  | VFloat f => float_repr f
  | VStr s => json_string s
  | VList l => "[" +:+ Str.join ", " (map json_dumps l) +:+ "]"
  | VDict d =>
      "{" +:+ Str.join ", "
                (map (fun kv => json_string kv.1 +:+ ": " +:+ json_dumps kv.2) d)
      +:+ "}"
  end.

(** ** utils.py *)

(** [join_urls(url, *urls)]: the first argument is used as a string, every
    later one goes through [str]. *)
Definition join_step (url1 : string) (url2 : value) : string :=
  Str.rstrip url1 +:+ "/" +:+ Str.lstrip (py_str url2).

Definition join_urls (url : string) (urls : list value) : string :=
  Str.rstrip (foldl join_step url urls).

Definition strip_prefix (s prefix : string) : string :=
  if String.prefix prefix s
  then Str.drop (String.length prefix) s
  else s.

(** [passed_kwargs]: a keyword argument left at [UNSET] is [None] here,
    a passed one is [Some v] (and [Some VNone] is a passed Python [None]). *)
Definition passed_kwargs (kwargs : list (string * option value)) : pydict :=
  foldl (fun d kv => match kv.2 with Some v => dict_set kv.1 v d | None => d end)
        [] kwargs.

(** ** The outside world

    What a call can observe and change: the HTTP session (an oracle giving
    the outcome of the n-th request sent), the log, the clock, and the
    dictionaries owned by the caller. *)

(** A [requests.Response]: [body_json] is what [json()] returns, [None] when
    it raises [ValueError]. *)
Record Response := { status_code : Z; body_json : option value }.

(** [response.ok] of the requests library: [raise_for_status] raises for
    [400 <= status_code < 600] and for nothing else. *)
Definition response_ok (r : Response) : bool :=
  negb ((400 <=? status_code r)%Z && (status_code r <? 600)%Z).

Inductive exn :=
  | ConnectionError (msg : string)
  | APIError (url : string) (response : Response)
             (response_json : option value) (message : option string)
  | KeyError (key : string)
  | OtherError (name : string).

(** [except ConnectionError] *)
Definition is_ConnectionError (e : exn) : bool :=
  match e with
  | ConnectionError _ => true
  | _ => false
  end.

(** Keyword arguments handed on to [session.request]. *)
Record kwargs := {
  params : option pydict;
  json : option value;
  allow_redirects : option bool
}.

Definition no_kwargs : kwargs :=
  {| params := None; json := None; allow_redirects := None |}.

(** [kwargs.setdefault('allow_redirects', b)] *)
Definition setdefault_allow_redirects (b : bool) (kw : kwargs) : kwargs :=
  {| params := params kw; json := json kw;
     allow_redirects := Some (default b (allow_redirects kw)) |}.

Record http_request := {
  req_session : nat;
  req_method : string;
  req_url : string;
  req_kwargs : kwargs
}.

Inductive net_outcome :=
  | NetRaise (e : exn)
  | NetResponse (r : Response).

Inductive level := Debug | Info | Warn.

Inductive logarg :=
  | LStr (s : string)
  | LExn (e : exn).

Inductive event :=
  | EvLog (lvl : level) (fmt : string) (args : list logarg)
  | EvSleep (seconds : Z)
  | EvRequest (req : http_request).

Record world := {
  net : nat -> http_request -> net_outcome;
  calls : nat;
  heap : gmap nat pydict;
  trace : list event
}.

Definition emit (e : event) (w : world) : world :=
  {| net := net w; calls := calls w; heap := heap w; trace := trace w ++ [e] |}.

Definition next_call (w : world) : world :=
  {| net := net w; calls := S (calls w); heap := heap w; trace := trace w |}.

Definition set_heap (h : gmap nat pydict) (w : world) : world :=
  {| net := net w; calls := calls w; heap := h; trace := trace w |}.

Inductive result (A : Type) :=
  | Ok (a : A)
  | Raise (e : exn).
Arguments Ok {A} a.
Arguments Raise {A} e.

Definition M (A : Type) : Type := world -> result A * world.

#[global] Instance M_ret : MRet M := fun A a w => (Ok a, w).

#[global] Instance M_bind : MBind M := fun A B f m w =>
  match m w with
  | (Ok a, w') => f a w'
  | (Raise e, w') => (Raise e, w')
  end.

Definition raise {A} (e : exn) : M A := fun w => (Raise e, w).

Definition log (lvl : level) (fmt : string) (args : list logarg) : M unit :=
  fun w => (Ok tt, emit (EvLog lvl fmt args) w).

Definition sleep (seconds : Z) : M unit :=
  fun w => (Ok tt, emit (EvSleep seconds) w).

(** [session.request(method, url, **kwargs)]: the request goes out and the
    session answers with a response or raises. *)
Definition session_request (session : nat) (method url : string) (kw : kwargs)
  : M Response :=
  fun w =>
    let req := {| req_session := session; req_method := method;
                  req_url := url; req_kwargs := kw |} in
    let w' := next_call (emit (EvRequest req) w) in
    match net w (calls w) req with
    | NetResponse r => (Ok r, w')
    | NetRaise e => (Raise e, w')
    end.

(** [record.pop(k)] on the dictionary stored at [r]. *)
Definition dict_pop (r : nat) (k : string) : M value :=
  fun w =>
    match heap w !! r with
    | Some d =>
        match dict_lookup k d with
        | Some v => (Ok v, set_heap (<[r := dict_remove k d]> (heap w)) w)
        | None => (Raise (KeyError k), w)
        end
    | None => (Raise (OtherError "not a dict"), w)
    end.

(** Reading the dictionary stored at [r]. *)
Definition dict_read (r : nat) : M pydict :=
  fun w =>
    match heap w !! r with
    | Some d => (Ok d, w)
    | None => (Raise (OtherError "not a dict"), w)
    end.

(** A list comprehension with an effectful body. *)
Fixpoint for_each {A B} (f : A -> M B) (l : list A) : M (list B) :=
  match l with
  | [] => mret []
  | x :: rest => y ← f x; ys ← for_each f rest; mret (y :: ys)
  end.

(** ** utils.retry *)

(** The loop of [wrapper]; [todo] is what is left of [range(num_attempts)]. *)
Fixpoint retry_loop (num_attempts : nat) (exception_class : exn -> bool)
    (func : M value) (todo : list nat) : M value :=
  match todo with
  | [] => mret VNone
  | i :: rest =>
      fun w =>
        match func w with
        | (Ok v, w') => (Ok v, w')
        | (Raise e, w') =>
            if exception_class e then
              if Nat.eqb i (num_attempts - 1) then (Raise e, w')
              else
                (_ ← log Warn "Failed with error %r, trying again" [LExn e];
                 _ ← sleep 1;
                 retry_loop num_attempts exception_class func rest) w'
            else (Raise e, w')
        end
  end.

Definition retry (num_attempts : nat) (exception_class : exn -> bool)
    (func : M value) : M value :=
  retry_loop num_attempts exception_class func (seq 0 num_attempts).

(** ** client.Client *)

Record Client := {
  server : string;
  base_url : string;
  session : nat;
  dryrun : bool
}.

(** [Client.__init__] when a session is handed in. *)
Definition Client_init (server base_url : string) (session : nat)
    (dryrun : bool) : Client :=
  {| server := server; base_url := strip_prefix base_url server;
     session := session; dryrun := dryrun |}.

Definition default_server : string := "https://docs.getgrist.com/".
Definition default_base_url : string := "/api/".

Module Client.

Definition full_url (self : Client) : string :=
  join_urls (server self) [VStr (base_url self)].

(** [self.at(base_url)]: an empty or missing [base_url] falls back on the
    client's own. *)
Definition or_own (self : Client) (new_base : option string) : string :=
  match new_base with
  | Some b => if String.eqb b "" then base_url self else b
  | None => base_url self
  end.

Definition at_ (self : Client) (new_base : option string) : Client :=
  Client_init (server self) (or_own self new_base) (session self) (dryrun self).

(** [self / other] *)
Definition truediv (self : Client) (other : value) : Client :=
  at_ self (Some (join_urls (base_url self) [other])).

Definition parent (self : Client) : Client :=
  at_ self (Some (Str.rsplit1_head (Str.rstrip (base_url self)))).

(** [status in (502, 503, 504)] *)
Definition is_retry_status (status : Z) : bool :=
  (status =? 502)%Z || (status =? 503)%Z || (status =? 504)%Z.

(** The local variable [error]: [result.get('error')] when [result] is a
    dict, [None] otherwise. *)
Definition error_field (result : value) : value :=
  match result with
  | VDict d => dict_get "error" d
  | _ => VNone
  end.

(** The body of [request], one attempt. *)
Definition request_body (self : Client) (method : string) (url : value)
    (kw : kwargs) : M value :=
  let url := join_urls (full_url self) [url] in
  if dryrun self && negb (String.eqb method "GET") then
    _ ← log Info "DRYRUN NOT sending %s request to %s" [LStr method; LStr url];
    mret VNone
  else
    _ ← log Debug "sending %s request to %s" [LStr method; LStr url];
    response ← session_request (session self) method url kw;
    if is_retry_status (status_code response) then
      raise (ConnectionError
               ("Server returned code " +:+ Str.of_Z (status_code response)))
    else
      match body_json response with
      | None => raise (APIError url response None (Some "Failed to parse JSON"))
      | Some result =>
          let error := error_field result in
          if Str.contains "SQLITE_BUSY" (py_str error) then
            raise (ConnectionError "Grist server returned SQLITE_BUSY")
          else if truthy error || negb (response_ok response) then
            raise (APIError url response (Some result) None)
          else mret result
      end.

(** [@retry(5, ConnectionError, log)] *)
Definition request (self : Client) (method : string) (url : value)
    (kw : kwargs) : M value :=
  retry 5 is_ConnectionError (request_body self method url kw).

Definition get (self : Client) (url : value) (kw : kwargs) : M value :=
  request self "GET" url (setdefault_allow_redirects true kw).

Definition options (self : Client) (url : value) (kw : kwargs) : M value :=
  request self "OPTIONS" url (setdefault_allow_redirects true kw).

Definition head (self : Client) (url : value) (kw : kwargs) : M value :=
  request self "HEAD" url (setdefault_allow_redirects false kw).

Definition post (self : Client) (url : value) (kw : kwargs) : M value :=
  request self "POST" url kw.

Definition put (self : Client) (url : value) (kw : kwargs) : M value :=
  request self "PUT" url kw.

Definition patch (self : Client) (url : value) (kw : kwargs) : M value :=
  request self "PATCH" url kw.

Definition delete (self : Client) (url : value) (kw : kwargs) : M value :=
  _ ← log Info "Sending DELETE request to %s"
          [LStr (join_urls (base_url self) [url])];
  request self "DELETE" url kw.

End Client.

Infix "</>" := Client.truediv (at level 40, left associativity).

(** ** The resource proxies *)

Record APIBase := { client : Client }.

Definition with_params (p : pydict) : kwargs :=
  {| params := Some p; json := None; allow_redirects := None |}.

Definition with_json (j : value) : kwargs :=
  {| params := None; json := Some j; allow_redirects := None |}.

Module APIBase.

(** [cls.at(client)] *)
Definition at_ (client : Client) : APIBase :=
  {| client := Client.at_ client None |}.

Definition truediv (self : APIBase) (other : value) : Client :=
  client self </> other.

End APIBase.

Module WithAccess.

Definition list_users (self : APIBase) : M value :=
  Client.get (client self) (VStr "access") no_kwargs.

Definition update_user_access (self : APIBase)
    (users maxInheritedRole : option value) : M value :=
  let delta := passed_kwargs [("users", users);
                              ("maxInheritedRole", maxInheritedRole)] in
  Client.patch (client self) (VStr "access")
    (with_json (VDict [("delta", VDict delta)])).

End WithAccess.

Module WithListRecords.

(** The query parameters [list] assembles. *)
Definition list_params (filters sort_by limit : option value) : pydict :=
  let params := passed_kwargs [("filters", filters); ("sort_by", sort_by);
                               ("limit", limit)] in
  match filters with
  | Some f => dict_set "filters" (VStr (json_dumps f)) params
  | None => params
  end.

Definition list (self : APIBase) (filters sort_by limit : option value)
  : M value :=
  Client.get (client self) (VStr "")
    (with_params (list_params filters sort_by limit)).

End WithListRecords.

Module Org.

Definition describe (self : APIBase) : M value :=
  Client.get (client self) (VStr "") no_kwargs.

Definition modify (self : APIBase) (name : value) : M value :=
  Client.patch (client self) (VStr "") (with_json (VDict [("name", name)])).

Definition update_user_access (self : APIBase) (users : value) : M value :=
  WithAccess.update_user_access self (Some users) None.

Definition delete (self : APIBase) : M value :=
  Client.delete (client self) (VStr "") no_kwargs.

Definition Workspaces (self : APIBase) : APIBase :=
  APIBase.at_ (APIBase.truediv self (VStr "workspaces")).

End Org.

Module Orgs.

Definition Org (self : APIBase) (org_id : value) : APIBase :=
  APIBase.at_ (APIBase.truediv self org_id).

Definition list (self : APIBase) : M value :=
  Client.get (client self) (VStr "") no_kwargs.

End Orgs.

Module Workspaces.

Definition list (self : APIBase) : M value :=
  Client.get (client self) (VStr "") no_kwargs.

Definition create (self : APIBase) (name : value) : M value :=
  Client.post (client self) (VStr "") (with_json (VDict [("name", name)])).

End Workspaces.

Module Docs.

Definition create (self : APIBase) (name isPinned : value) : M value :=
  Client.post (client self) (VStr "")
    (with_json (VDict [("name", name); ("isPinned", isPinned)])).

End Docs.

Module Workspace.

Definition Docs (self : APIBase) : APIBase :=
  APIBase.at_ (APIBase.truediv self (VStr "docs")).

Definition describe (self : APIBase) : M value :=
  Client.get (client self) (VStr "") no_kwargs.

Definition modify (self : APIBase) (name : value) : M value :=
  Client.patch (client self) (VStr "") (with_json (VDict [("name", name)])).

Definition delete (self : APIBase) : M value :=
  Client.delete (client self) (VStr "") no_kwargs.

End Workspace.

Module Doc.

Definition describe (self : APIBase) : M value :=
  Client.get (client self) (VStr "") no_kwargs.

Definition modify (self : APIBase) (name isPinned : option value) : M value :=
  Client.patch (client self) (VStr "")
    (with_json (VDict (passed_kwargs [("name", name); ("isPinned", isPinned)]))).

Definition move (self : APIBase) (workspace_id : value) : M value :=
  Client.patch (client self) (VStr "move")
    (with_json (VDict [("workspace", workspace_id)])).

Definition delete (self : APIBase) : M value :=
  Client.delete (client self) (VStr "") no_kwargs.

Definition download (self : APIBase) : M value :=
  Client.get (client self) (VStr "download") no_kwargs.

Definition download_xlsx (self : APIBase) : M value :=
  Client.get (client self) (VStr "download/xlsx") no_kwargs.

Definition download_csv (self : APIBase) (table_id : value) : M value :=
  Client.get (client self) (VStr "download/csv")
    (with_params [("tableId", table_id)]).

Definition Table (self : APIBase) (table_id : value) : APIBase :=
  APIBase.at_ (APIBase.truediv self (VStr "tables") </> table_id).

Definition Attachments (self : APIBase) : APIBase :=
  APIBase.at_ (APIBase.truediv self (VStr "attachments")).

End Doc.

Module Table.

Definition Records (self : APIBase) : APIBase :=
  APIBase.at_ (APIBase.truediv self (VStr "records")).

Definition columns (self : APIBase) : M value :=
  Client.get (client self) (VStr "columns") no_kwargs.

Definition table_id (self : APIBase) : string :=
  Str.split_last (Str.rstrip (base_url (client self))).

Definition download_csv (self : APIBase) : M value :=
  Doc.download_csv
    (APIBase.at_ (Client.parent (Client.parent (client self))))
    (VStr (table_id self)).

End Table.

Module Records.

Definition _noparse (parse_strings : bool) : pydict :=
  if parse_strings then [] else [("noparse", VStr "true")].

Definition send_kwargs (records : list value) (parse_strings : bool) : kwargs :=
  {| params := Some (_noparse parse_strings);
     json := Some (VDict [("records", VList records)]);
     allow_redirects := None |}.

(** [records] are references to the caller's dictionaries.  The envelopes
    a comprehension builds hold those same dictionaries; the session
    serializes them when the request goes out, and nothing runs in between,
    so they are read right before the call. *)

(** [{"fields": record}], as it is sent. *)
Definition sent_create (record : nat) : M value :=
  d ← dict_read record; mret (VDict [("fields", VDict d)]).

Definition create (self : APIBase) (records : list nat) (parse_strings : bool)
  : M value :=
  payload ← for_each sent_create records;
  Client.post (client self) (VStr "") (send_kwargs payload parse_strings).

(** [{"id": record.pop("id"), "fields": record}] *)
Definition pop_id (record : nat) : M (value * nat) :=
  id ← dict_pop record "id"; mret (id, record).

(** The same envelope, as it is sent. *)
Definition sent_modify (env : value * nat) : M value :=
  d ← dict_read env.2; mret (VDict [("id", env.1); ("fields", VDict d)]).

Definition modify (self : APIBase) (records : list nat) (parse_strings : bool)
  : M value :=
  records ← for_each pop_id records;
  payload ← for_each sent_modify records;
  Client.patch (client self) (VStr "") (send_kwargs payload parse_strings).

Definition create_or_modify (self : APIBase) : M value :=
  Client.put (client self) (VStr "") no_kwargs.

(** No [return] in the source: the value of the call is dropped. *)
Definition delete (self : APIBase) : M value :=
  _ ← Client.post (Client.parent (client self)) (VStr "data/delete") no_kwargs;
  mret VNone.

End Records.

Module Attachments.

Definition create (self : APIBase) : M value :=
  Client.post (client self) (VStr "") no_kwargs.

Definition Attachment (self : APIBase) (attachment_id : value) : APIBase :=
  APIBase.at_ (APIBase.truediv self attachment_id).

End Attachments.

(** [Doc.Attachment] *)
Definition Doc_Attachment (self : APIBase) (attachment_id : value) : APIBase :=
  Attachments.Attachment (Doc.Attachments self) attachment_id.

Module Attachment.

Definition describe (self : APIBase) : M value :=
  Client.get (client self) (VStr "") no_kwargs.

Definition download (self : APIBase) : M value :=
  Client.get (client self) (VStr "download") no_kwargs.

End Attachment.

Module GristAPI.

Definition Orgs (self : APIBase) : APIBase :=
  APIBase.at_ (APIBase.truediv self (VStr "orgs")).

Definition Org (self : APIBase) (org_id : value) : APIBase :=
  Orgs.Org (Orgs self) org_id.

Definition Workspace (self : APIBase) (workspace_id : value) : APIBase :=
  APIBase.at_ (APIBase.truediv self (VStr "workspaces") </> workspace_id).

Definition Doc (self : APIBase) (doc_id : value) : APIBase :=
  APIBase.at_ (APIBase.truediv self (VStr "docs") </> doc_id).

End GristAPI.

(** A server for the examples: answers every request with [r]. *)
Definition always (r : Response) : nat -> http_request -> net_outcome :=
  fun _ _ => NetResponse r.

Definition world0 (n : nat -> http_request -> net_outcome)
    (h : gmap nat pydict) : world :=
  {| net := n; calls := 0; heap := h; trace := [] |}.

Definition root : APIBase :=
  {| client := Client_init default_server default_base_url 0 false |}.

(** * Path composition *)

(** The part of a segment that survives a join: the segment without its
    leading and trailing slashes. *)
Definition core (s : string) : string := Str.rstrip (Str.lstrip s).

(** What one segment adds to a joined URL. *)
Definition slash_core (s : string) : string :=
  match core s with
  | EmptyString => EmptyString
  | c => "/" +:+ c
  end.

Definition join_cores (l : list string) : string :=
  Str.concat (map slash_core l).

(** A chain of descents. *)
Definition descend (c : Client) (segs : list value) : Client :=
  foldl Client.truediv c segs.

(** The URL a call on [c] with relative path [url] is sent to. *)
Definition request_url (c : Client) (url : value) : string :=
  join_urls (Client.full_url c) [url].

(** The server address is no prefix of the cursor a descent into [s] hands
    to the constructor, so that [strip_prefix] leaves the cursor alone. *)
Definition no_strip (c : Client) (s : value) : bool :=
  negb (String.prefix (server c)
          (Client.or_own c (Some (join_urls (base_url c) [s])))).

Fixpoint no_strip_chain (c : Client) (segs : list value) : bool :=
  match segs with
  | [] => true
  | s :: rest => no_strip c s && no_strip_chain (c </> s) rest
  end.

Definition with_base (c : Client) (b : string) : Client :=
  {| server := server c; base_url := b;
     session := session c; dryrun := dryrun c |}.

(** The join as the specification words it: all segments cut at every
    slash, the empty pieces dropped, the rest joined by single slashes. *)
Fixpoint pieces (acc s : string) : list string :=
  match s with
  | String c s' =>
      if Str.is_slash c then
        (match acc with EmptyString => [] | _ => [acc] end) ++ pieces "" s'
      else pieces (acc +:+ String c "") s'
  | EmptyString => match acc with EmptyString => [] | _ => [acc] end
  end.

Definition normalized_join (segments : list string) : string :=
  Str.join "/" (concat (map (pieces "") segments)).

(** * Vocabulary for the transport's behaviour *)

(** The request every attempt of a call sends. *)
Definition request_of (c : Client) (method : string) (url : value)
    (kw : kwargs) : http_request :=
  {| req_session := session c; req_method := method;
     req_url := request_url c url; req_kwargs := kw |}.

(** The dry-run switch suppresses the call. *)
Definition skipped (c : Client) (method : string) : bool :=
  dryrun c && negb (String.eqb method "GET").

(** The session's answer to the [i]-th request sent from [w] on. *)
Definition answer (w : world) (req : http_request) (i : nat) : net_outcome :=
  net w (calls w + i)%nat req.

(** A low-level connection failure, or a response with status 502, 503 or
    504. *)
Definition transient (o : net_outcome) : bool :=
  match o with
  | NetRaise e => is_ConnectionError e
  | NetResponse r => Client.is_retry_status (status_code r)
  end.

(** The parsed body is a mapping whose error field, as a string, has the
    contention marker in it. *)
Definition busy_body (r : Response) : bool :=
  match body_json r with
  | Some (VDict d) => Str.contains "SQLITE_BUSY" (py_str (dict_get "error" d))
  | _ => false
  end.

Definition busy (o : net_outcome) : bool :=
  match o with
  | NetRaise _ => false
  | NetResponse r => busy_body r
  end.

Definition retryable (o : net_outcome) : bool := transient o || busy o.

(** The failure a retryable attempt ends in. *)
Definition failure_error (o : net_outcome) : exn :=
  match o with
  | NetRaise e => e
  | NetResponse r =>
      if Client.is_retry_status (status_code r)
      then ConnectionError
             ("Server returned code " +:+ Str.of_Z (status_code r))
      else ConnectionError "Grist server returned SQLITE_BUSY"
  end.

(** The response parses to [v] and is a full success. *)
Definition succeeds (r : Response) (v : value) : Prop :=
  Client.is_retry_status (status_code r) = false /\
  body_json r = Some v /\
  Str.contains "SQLITE_BUSY" (py_str (Client.error_field v)) = false /\
  truthy (Client.error_field v) = false /\
  response_ok r = true.

(** The status is one of the 2xx codes. *)
Definition is_2xx (status : Z) : bool :=
  (200 <=? status)%Z && (status <? 300)%Z.

(** What one attempt adds to the trace, and what a retry adds after it. *)
Definition attempt_events (req : http_request) : list event :=
  [EvLog Debug "sending %s request to %s"
     [LStr (req_method req); LStr (req_url req)];
   EvRequest req].

Definition retry_events (e : exn) : list event :=
  [EvLog Warn "Failed with error %r, trying again" [LExn e]; EvSleep 1].

(** The world after attempts that failed with [errors], each followed by a
    warning and a pause, and one more attempt. *)
Definition after_attempts (w : world) (req : http_request)
    (errors : list exn) : world :=
  {| net := net w;
     calls := (calls w + S (length errors))%nat;
     heap := heap w;
     trace := (trace w
               ++ flat_map (fun e => attempt_events req ++ retry_events e) errors
               ++ attempt_events req)%list |}.

(** The failures of the first [k] attempts. *)
Definition failures (w : world) (req : http_request) (k : nat) : list exn :=
  map (fun i => failure_error (answer w req i)) (seq 0 k).

(** What the body of [request] makes of the session's answer. *)
Definition attempt_result (url : string) (o : net_outcome) : result value :=
  match o with
  | NetRaise e => Raise e
  | NetResponse r =>
      if Client.is_retry_status (status_code r) then Raise (failure_error o)
      else
        match body_json r with
        | None => Raise (APIError url r None (Some "Failed to parse JSON"))
        | Some v =>
            if Str.contains "SQLITE_BUSY" (py_str (Client.error_field v))
            then Raise (failure_error o)
            else if truthy (Client.error_field v) || negb (response_ok r)
            then Raise (APIError url r (Some v) None)
            else Ok v
        end
  end.

Definition with_dryrun (c : Client) (b : bool) : Client :=
  {| server := server c; base_url := base_url c;
     session := session c; dryrun := b |}.

(** * Vocabulary for the examples and the payloads *)

(** A server that answers 503 to the first [n] requests and [r] after. *)
Definition flaky (n : nat) (r : Response) : nat -> http_request -> net_outcome :=
  fun i _ =>
    if (i <? n)%nat
    then NetResponse {| status_code := 503; body_json := None |}
    else NetResponse r.

(** A server that answers the first [n] requests with [busy_r] and the
    later ones with [r]. *)
Definition contended (n : nat) (busy_r r : Response)
  : nat -> http_request -> net_outcome :=
  fun i _ => if (i <? n)%nat then NetResponse busy_r else NetResponse r.

(** The envelope [modify] builds for the record at [r]: the identifying key
    next to the fields that are left. *)
Definition hoisted (h : gmap nat pydict) (r : nat) : value :=
  match h !! r with
  | Some d => VDict [("id", dict_get "id" d);
                     ("fields", VDict (dict_remove "id" d))]
  | None => VNone
  end.

(** The caller's dictionaries after [modify] went over [records]. *)
Definition popped (h : gmap nat pydict) (records : list nat) : gmap nat pydict :=
  foldl (fun h r => match h !! r with
                    | Some d => <[r := dict_remove "id" d]> h
                    | None => h
                    end) h records.

(** * Vocabulary for navigation *)

(** The cursor is rooted: it starts with a slash. *)
Definition starts_with_slash (s : string) : bool :=
  match s with
  | String c _ => Str.is_slash c
  | EmptyString => false
  end.

(** The server address starts with something other than a slash, as an
    address with a scheme does. *)
Definition plain_server (s : string) : bool :=
  match s with
  | String c _ => negb (Str.is_slash c)
  | EmptyString => false
  end.

(** One step from a client to another. *)
Inductive move :=
  | Down (s : value)
  | Up
  | At (b : option string).

Definition step (c : Client) (m : move) : Client :=
  match m with
  | Down s => c </> s
  | Up => Client.parent c
  | At b => Client.at_ c b
  end.

Definition navigate (c : Client) (moves : list move) : Client :=
  foldl step c moves.

(** A move is a descent, an ascent, or a plain copy. *)
Definition inner (m : move) : bool :=
  match m with
  | At (Some _) => false
  | _ => true
  end.

(** * Credentials and construction *)

(** [c.isspace()] for an ASCII character. *)
Definition is_space (c : ascii) : bool :=
  let n := Ascii.N_of_ascii c in
  ((9 <=? n)%N && (n <=? 13)%N) || ((28 <=? n)%N && (n <=? 32)%N).

Fixpoint lstrip_space (s : string) : string :=
  match s with
  | String c s' => if is_space c then lstrip_space s' else s
  | EmptyString => EmptyString
  end.

Fixpoint rstrip_space (s : string) : string :=
  match s with
  | String c s' =>
      match rstrip_space s' with
      | EmptyString => if is_space c then EmptyString else String c EmptyString
      | r => String c r
      end
  | EmptyString => EmptyString
  end.

(** [s.strip()]; exact on ASCII text. *)
Definition py_strip (s : string) : string := rstrip_space (lstrip_space s).

(** What [get_api_key] reads: the variable [GRIST_API_KEY] of the
    environment when it is set, the expanded path of the key file, and the
    text of that file when it exists. *)
Record environment := {
  env_GRIST_API_KEY : option string;
  key_path : string;
  key_file : option string
}.

Definition get_api_key (env : environment) : result string :=
  let key := env_GRIST_API_KEY env in
  match key with
  | Some (String c k) => Ok (String c k)
  | _ =>
      match key_file env with
      | Some text => Ok (py_strip text)
      | None =>
          Raise (KeyError
                   ("Grist API key not found in GRIST_API_KEY env, nor in "
                    +:+ key_path env))
      end
  end.

(** The sessions that exist, each with its headers; a session is named by
    its place in the list. *)
Abbreviation sessions := (list (list (string * string))).

(** [headers.update({k: v})] *)
Fixpoint header_set (k v : string) (h : list (string * string))
  : list (string * string) :=
  match h with
  | [] => [(k, v)]
  | (k', v') :: h' =>
      if String.eqb k k' then (k, v) :: h' else (k', v') :: header_set k v h'
  end.

(** [Client.__init__]: [default_headers] are the headers a new [Session]
    starts with. *)
Definition Client_new (env : environment)
    (default_headers : list (string * string))
    (server base_url : string) (api_key : option string)
    (session : option nat) (dryrun : bool) (ss : sessions)
  : result Client * sessions :=
  let key_given := match api_key with
                   | Some (String _ _) => true
                   | _ => false
                   end in
  if key_given && bool_decide (is_Some session) then
    (Raise (OtherError "AssertionError"), ss)
  else
    match session with
    | Some s => (Ok (Client_init server base_url s dryrun), ss)
    | None =>
        let s := length ss in
        let found := if key_given then Ok (default "" api_key)
                     else get_api_key env in
        match found with
        | Ok key =>
            (Ok (Client_init server base_url s dryrun),
             (ss ++ [header_set "Authorization" ("Bearer " +:+ key)
                       default_headers])%list)
        | Raise e => (Raise e, (ss ++ [default_headers])%list)
        end
    end.

(** [APIError.__str__]; [pformat] stands for [pprint.pformat]. *)
Definition APIError_str (pformat : option value -> string) (url : string)
    (response : Response) (response_json : option value)
    (message : option string) : string :=
  let error := match message with
               | Some (String c m) => String c m
               | _ => pformat response_json
               end in
  "Error at " +:+ url +:+ ", code " +:+ Str.of_Z (status_code response)
  +:+ ":" +:+ String (Ascii.ascii_of_nat 10) "" +:+ error.

(** * Counting what a call adds to the trace *)

Definition is_sleep (e : event) : bool :=
  match e with EvSleep _ => true | _ => false end.

Definition is_warning (e : event) : bool :=
  match e with EvLog Warn _ _ => true | _ => false end.

Definition is_request (e : event) : bool :=
  match e with EvRequest _ => true | _ => false end.

Definition count (p : event -> bool) (l : list event) : nat :=
  length (filter (fun e => p e = true) l).

(** * The doctest client *)

Definition newline : string := String (Ascii.ascii_of_nat 10) "".

(** One line of the message for a keyword argument: only json and params
    are shown, and only when their value is truthy. *)
Definition kwarg_line (key : string) (v : option value) : string :=
  match v with
  | Some x => if truthy x then newline +:+ "    " +:+ key +:+ "=" +:+ py_str x
              else ""
  | None => ""
  end.

(** What [DocTestClient.request] prints.  The keyword arguments come in the
    order every caller in the module passes them: json, then params. *)
Definition DocTestClient_request (self : Client) (method : string)
    (url : value) (kw : kwargs) : string :=
  let url := join_urls (Client.full_url self) [url] in
  method +:+ " " +:+ url
  +:+ kwarg_line "json" (json kw)
  +:+ kwarg_line "params" (VDict <$> params kw).

(** The first request in a trace. *)
Fixpoint first_request (t : list event) : option http_request :=
  match t with
  | [] => None
  | EvRequest req :: _ => Some req
  | _ :: t' => first_request t'
  end.

(** The message for a request that is about to go out. *)
Definition shown (req : http_request) : string :=
  req_method req +:+ " " +:+ req_url req
  +:+ kwarg_line "json" (json (req_kwargs req))
  +:+ kwarg_line "params" (VDict <$> params (req_kwargs req)).

(** What the doctest client prints for a proxy call: the call is run against
    a server that accepts everything, and the request it sends is shown. *)
Definition doctest (h : gmap nat pydict) (call : M value) : option string :=
  shown <$> first_request
              (trace (call (world0 (always {| status_code := 200;
                                              body_json := Some VNone |}) h)).2).

(** An expected output: a first line and indented lines after it. *)
Definition output (first : string) (more : list string) : option string :=
  Some (first +:+ Str.concat (map (fun l => newline +:+ "    " +:+ l) more)).

(** The proxies of the doctests. *)
Definition test_org : APIBase := GristAPI.Org root (VInt 123).
Definition test_workspace : APIBase := GristAPI.Workspace root (VInt 456).
Definition test_doc : APIBase := GristAPI.Doc root (VInt 789).
Definition test_table : APIBase := Doc.Table test_doc (VStr "Table1").
Definition test_records : APIBase := Table.Records test_table.
Definition test_attachments : APIBase := Doc.Attachments test_doc.
Definition test_attachment : APIBase := Doc_Attachment test_doc (VInt 123).

(** The caller's dictionaries in the doctests of [Records]. *)
Definition test_heap : gmap nat pydict :=
  {[ 0%nat := [("pet", VStr "cat"); ("age", VInt 3)];
     1%nat := [("pet", VStr "dog"); ("age", VInt 5)];
     2%nat := [("id", VInt 1); ("age", VInt 4)] ]}.

Section StrLemmas.

Implicit Types a b s t : string.

Lemma sapp_cons c a b : String c a +:+ b = String c (a +:+ b).
Proof. reflexivity. Qed.

Lemma sapp_empty_r s : s +:+ "" = s.
Proof. induction s as [|c s IH]; [done | by rewrite sapp_cons, IH]. Qed.

Lemma sapp_assoc a b s : (a +:+ b) +:+ s = a +:+ (b +:+ s).
Proof. induction a as [|c a IH]; [done | by rewrite !sapp_cons, IH]. Qed.

Lemma sapp_eq_empty a b : a +:+ b = "" -> a = "" /\ b = "".
Proof. destruct a; [done | rewrite sapp_cons; discriminate]. Qed.

Lemma rstrip_cons c s :
  Str.rstrip (String c s) =
  match Str.rstrip s with
  | EmptyString => if Str.is_slash c then EmptyString else String c EmptyString
  | r => String c r
  end.
Proof. reflexivity. Qed.

Lemma rstrip_app_nonempty a b :
  Str.rstrip b <> "" -> Str.rstrip (a +:+ b) = a +:+ Str.rstrip b.
Proof.
  intros Hb. induction a as [|c a IH]; [done |].
  rewrite !sapp_cons, rstrip_cons, IH.
  destruct (a +:+ Str.rstrip b) eqn:E; [| done].
  apply sapp_eq_empty in E as [_ E]. contradiction.
Qed.

Lemma rstrip_app_empty a b :
  Str.rstrip b = "" -> Str.rstrip (a +:+ b) = Str.rstrip a.
Proof.
  intros Hb. induction a as [|c a IH]; [done |].
  by rewrite sapp_cons, !rstrip_cons, IH.
Qed.

Lemma rstrip_idem s : Str.rstrip (Str.rstrip s) = Str.rstrip s.
Proof.
  induction s as [|c s IH]; [done |].
  rewrite rstrip_cons. destruct (Str.rstrip s) as [|c' r] eqn:E.
  - destruct (Str.is_slash c) eqn:Ec; [done |].
    by rewrite rstrip_cons, Ec.
  - by rewrite rstrip_cons, IH.
Qed.

Lemma lstrip_app_nonempty a b :
  Str.lstrip a <> "" -> Str.lstrip (a +:+ b) = Str.lstrip a +:+ b.
Proof.
  induction a as [|c a IH]; [done |]. rewrite sapp_cons. simpl.
  destruct (Str.is_slash c); [exact IH | done].
Qed.

Lemma lstrip_app_empty a b :
  Str.lstrip a = "" -> Str.lstrip (a +:+ b) = Str.lstrip b.
Proof.
  induction a as [|c a IH]; [done |]. rewrite sapp_cons. simpl.
  destruct (Str.is_slash c); [exact IH | discriminate].
Qed.

Lemma lstrip_idem s : Str.lstrip (Str.lstrip s) = Str.lstrip s.
Proof.
  induction s as [|c s IH]; [done |]. simpl.
  destruct (Str.is_slash c) eqn:E; [done |]. simpl. by rewrite E.
Qed.

Lemma rstrip_lstrip s : Str.rstrip (Str.lstrip s) = Str.lstrip (Str.rstrip s).
Proof.
  induction s as [|c s IH]; [done |].
  rewrite rstrip_cons. simpl Str.lstrip at 1.
  destruct (Str.is_slash c) eqn:Ec.
  - rewrite IH. destruct (Str.rstrip s); [done |]. simpl. by rewrite Ec.
  - rewrite rstrip_cons.
    destruct (Str.rstrip s); simpl; by rewrite Ec.
Qed.

Lemma lstrip_empty_rstrip s : Str.lstrip s = "" -> Str.rstrip s = "".
Proof.
  induction s as [|c s IH]; [done |]. simpl.
  destruct (Str.is_slash c) eqn:Ec; [| discriminate].
  intros H. by rewrite (IH H).
Qed.

Lemma core_rstrip s : Str.rstrip (core s) = core s.
Proof. apply rstrip_idem. Qed.

Lemma core_lstrip s : Str.lstrip (core s) = core s.
Proof. unfold core. by rewrite rstrip_lstrip, lstrip_idem. Qed.

Lemma core_empty_rstrip s : core s = "" -> Str.rstrip s = "".
Proof.
  unfold core. rewrite rstrip_lstrip. intros H.
  apply lstrip_empty_rstrip in H. by rewrite rstrip_idem in H.
Qed.

Lemma rstrip_empty_core s : Str.rstrip s = "" -> core s = "".
Proof. unfold core. rewrite rstrip_lstrip. by intros ->. Qed.

Lemma rstrip_slash_core s : Str.rstrip (slash_core s) = slash_core s.
Proof.
  unfold slash_core. destruct (core s) eqn:E; [done |].
  rewrite <- E. change ("/" +:+ core s) with (String "/" (core s)).
  by rewrite rstrip_cons, core_rstrip, E.
Qed.

Lemma rstrip_app_fixed a b :
  Str.rstrip a = a -> Str.rstrip b = b -> Str.rstrip (a +:+ b) = a +:+ b.
Proof.
  intros Ha Hb. destruct b as [|c b].
  - by rewrite sapp_empty_r.
  - rewrite rstrip_app_nonempty; rewrite Hb; done.
Qed.

Lemma rstrip_join_cores l : Str.rstrip (join_cores l) = join_cores l.
Proof.
  induction l as [|s l IH]; [done |].
  apply rstrip_app_fixed; [apply rstrip_slash_core | exact IH].
Qed.

Lemma join_cores_app l1 l2 :
  join_cores (l1 ++ l2)%list = join_cores l1 +:+ join_cores l2.
Proof.
  induction l1 as [|s l1 IH]; [done |].
  unfold join_cores in *. simpl. by rewrite IH, sapp_assoc.
Qed.

Lemma rstrip_join_step u x :
  Str.rstrip (join_step u x) = Str.rstrip u +:+ slash_core (py_str x).
Proof.
  unfold join_step, slash_core.
  assert (Hc : Str.rstrip ("/" +:+ Str.lstrip (py_str x)) =
               match core (py_str x) with
               | EmptyString => EmptyString
               | c => "/" +:+ c
               end).
  { change ("/" +:+ Str.lstrip (py_str x))
      with (String "/" (Str.lstrip (py_str x))).
    rewrite rstrip_cons. fold (core (py_str x)).
    by destruct (core (py_str x)). }
  destruct (core (py_str x)) eqn:E.
  - by rewrite rstrip_app_empty, rstrip_idem, sapp_empty_r.
  - rewrite rstrip_app_nonempty; rewrite Hc; done.
Qed.

(** [join_urls] in closed form. *)
Lemma join_urls_cores u us :
  join_urls u us = Str.rstrip u +:+ join_cores (map py_str us).
Proof.
  unfold join_urls. revert u.
  induction us as [|x us IH]; intros u; simpl.
  - by rewrite sapp_empty_r.
  - rewrite IH, rstrip_join_step, sapp_assoc. done.
Qed.

Lemma join_urls_rstrip u us : Str.rstrip (join_urls u us) = join_urls u us.
Proof. unfold join_urls. apply rstrip_idem. Qed.

End StrLemmas.

(** * The resolved URL *)

Lemma strip_prefix_none s p : String.prefix p s = false -> strip_prefix s p = s.
Proof. unfold strip_prefix. by intros ->. Qed.

Lemma core_of_rstrip s : core (Str.rstrip s) = core s.
Proof. unfold core. by rewrite <- rstrip_lstrip, rstrip_idem. Qed.

Lemma slash_core_rstrip s : slash_core (Str.rstrip s) = slash_core s.
Proof. unfold slash_core. by rewrite core_of_rstrip. Qed.

Lemma lstrip_slash_core s : Str.lstrip (slash_core s) = core s.
Proof.
  unfold slash_core. destruct (core s) eqn:E; [done |].
  rewrite <- E. change (Str.lstrip ("/" +:+ core s)) with (Str.lstrip (core s)).
  apply core_lstrip.
Qed.

Lemma full_url_cores c :
  Client.full_url c = Str.rstrip (server c) +:+ slash_core (base_url c).
Proof.
  unfold Client.full_url. rewrite join_urls_cores.
  unfold join_cores. simpl. by rewrite sapp_empty_r.
Qed.

Lemma request_url_cores c url :
  request_url c url =
  Str.rstrip (server c) +:+ join_cores [base_url c; py_str url].
Proof.
  unfold request_url. rewrite join_urls_cores.
  unfold Client.full_url. rewrite join_urls_rstrip, join_urls_cores.
  rewrite sapp_assoc. f_equal.
  change [base_url c; py_str url] with ([base_url c] ++ [py_str url])%list.
  by rewrite join_cores_app.
Qed.

(** The core of a joined cursor is made of the cores of its parts. *)
Lemma slash_core_join b l :
  slash_core (Str.rstrip b +:+ join_cores l) = slash_core b +:+ join_cores l.
Proof.
  assert (Hfix : forall t, t <> "" -> Str.lstrip t = t -> Str.rstrip t = t ->
                           slash_core t = "/" +:+ t).
  { intros t Ht Hl Hr. unfold slash_core, core. rewrite Hl, Hr.
    by destruct t. }
  destruct (core b) eqn:Eb.
  - rewrite (core_empty_rstrip _ Eb). unfold slash_core at 2. rewrite Eb.
    change ("" +:+ join_cores l) with (join_cores l).
    induction l as [|s l IH]; [done |].
    unfold join_cores in *. simpl. fold (join_cores l) in *.
    unfold slash_core at 2 3. destruct (core s) eqn:Es; [exact IH |].
    rewrite <- Es. rewrite sapp_assoc.
    change (slash_core ("/" +:+ (core s +:+ join_cores l))
            = "/" +:+ (core s +:+ join_cores l)).
    unfold slash_core, core.
    change (Str.lstrip ("/" +:+ (Str.rstrip (Str.lstrip s) +:+ join_cores l)))
      with (Str.lstrip (Str.rstrip (Str.lstrip s) +:+ join_cores l)).
    fold (core s).
    rewrite lstrip_app_nonempty by (rewrite core_lstrip, Es; done).
    rewrite core_lstrip.
    rewrite rstrip_app_fixed by (apply core_rstrip || apply rstrip_join_cores).
    rewrite Es. done.
  - assert (Hl : Str.lstrip (Str.rstrip b) = core b)
      by (unfold core; by rewrite rstrip_lstrip).
    unfold slash_core at 1, core.
    rewrite lstrip_app_nonempty by (rewrite Hl, Eb; done).
    rewrite Hl.
    rewrite rstrip_app_fixed by (apply core_rstrip || apply rstrip_join_cores).
    unfold slash_core. rewrite Eb. rewrite <- Eb.
    by destruct (core b); [| rewrite sapp_assoc].
Qed.

Lemma truediv_base c s :
  no_strip c s = true ->
  base_url (c </> s) = Client.or_own c (Some (join_urls (base_url c) [s])).
Proof.
  unfold no_strip. intros H%negb_true_iff.
  unfold Client.truediv, Client.at_, Client_init. simpl base_url at 1.
  by apply strip_prefix_none.
Qed.

Lemma truediv_server c s : server (c </> s) = server c.
Proof. reflexivity. Qed.

Lemma truediv_cores c s :
  no_strip c s = true ->
  slash_core (base_url (c </> s)) =
  slash_core (base_url c) +:+ slash_core (py_str s).
Proof.
  intros H. rewrite (truediv_base _ _ H). unfold Client.or_own.
  rewrite join_urls_cores.
  destruct (String.eqb_spec (Str.rstrip (base_url c) +:+ join_cores (map py_str [s])) "")
    as [E|E].
  - apply sapp_eq_empty in E as [E1 E2].
    unfold join_cores in E2. simpl in E2. rewrite sapp_empty_r in E2.
    by rewrite E2, sapp_empty_r.
  - rewrite slash_core_join. unfold join_cores. simpl. by rewrite sapp_empty_r.
Qed.

Lemma descend_cores segs : forall c,
  no_strip_chain c segs = true ->
  server (descend c segs) = server c /\
  slash_core (base_url (descend c segs)) =
  join_cores (base_url c :: map py_str segs).
Proof.
  unfold descend. induction segs as [|s segs IH]; intros c H; simpl.
  - split; [done |]. unfold join_cores. simpl. by rewrite sapp_empty_r.
  - simpl in H. apply andb_true_iff in H as [H1 H2].
    destruct (IH _ H2) as [IHs IHc]. split; [by rewrite IHs |].
    rewrite IHc.
    change (base_url (c </> s) :: map py_str segs)
      with ([base_url (c </> s)] ++ map py_str segs)%list.
    change (base_url c :: py_str s :: map py_str segs)
      with ([base_url c; py_str s] ++ map py_str segs)%list.
    rewrite !join_cores_app. f_equal.
    unfold join_cores. simpl. rewrite !sapp_empty_r.
    by apply truediv_cores.
Qed.

(** C5 (amended).  After any chain of descents in which the constructor
    never strips a server prefix off the cursor, a call is sent to the server
    address without its trailing slashes followed, for the cursor, every
    descent and the call's own path in turn, by one slash and the segment's
    core (the segment without leading and trailing slashes), segments with
    an empty core adding nothing; slashes inside a core are kept as they
    are, and the URL has no trailing slash. *)
Theorem resolved_url_join (c : Client) (segs : list value) (url : value) :
  no_strip_chain c segs = true ->
  request_url (descend c segs) url =
    Str.rstrip (server c) +:+
    join_cores (base_url c :: map py_str segs ++ [py_str url])%list /\
  Str.rstrip (request_url (descend c segs) url) =
    request_url (descend c segs) url.
Proof.
  intros H. destruct (descend_cores segs c H) as [Hs Hc]. split.
  - rewrite request_url_cores, Hs. f_equal.
    change [base_url (descend c segs); py_str url]
      with ([base_url (descend c segs)] ++ [py_str url])%list.
    change (base_url c :: map py_str segs ++ [py_str url])%list
      with ((base_url c :: map py_str segs) ++ [py_str url])%list.
    rewrite !join_cores_app. f_equal.
    rewrite <- Hc. unfold join_cores. simpl. by rewrite sapp_empty_r.
  - apply join_urls_rstrip.
Qed.

Lemma resolved_url_join_witness :
  let c := Client_init default_server default_base_url 0 false in
  request_url
    (descend c [VStr "docs"; VInt 789; VStr "/tables/"; VStr "Table1"])
    (VStr "records/")
  = "https://docs.getgrist.com/api/docs/789/tables/Table1/records".
Proof.
  intros c.
  rewrite (proj1 (resolved_url_join c
             [VStr "docs"; VInt 789; VStr "/tables/"; VStr "Table1"]
             (VStr "records/") eq_refl)).
  reflexivity.
Defined.

(** C5, as stated, fails: a doubled slash inside a segment reaches the URL
    unchanged, where the normalized join has single slashes only. *)
Lemma resolved_url_keeps_inner_slashes :
  let c := Client_init default_server default_base_url 0 false in
  request_url (descend c [VStr "a//b"]) (VStr "")
    = "https://docs.getgrist.com/api/a//b" /\
  normalized_join [default_server; default_base_url; "a//b"; ""]
    = "https:/docs.getgrist.com/api/a/b" /\
  request_url (descend c [VStr "a//b"]) (VStr "")
    <> normalized_join [default_server; default_base_url; "a//b"; ""].
Proof. split; [reflexivity | split; [reflexivity | discriminate]]. Qed.

(** * Descent and ascent *)

Lemma rsplit_last_none t : Str.has_slash_in t = false -> Str.rsplit_last t = None.
Proof.
  induction t as [|c t IH]; [done |]. simpl.
  intros [Hc Ht]%orb_false_iff. by rewrite (IH Ht), Hc.
Qed.

Lemma rsplit_last_app a t :
  Str.has_slash_in t = false -> Str.rsplit_last (a +:+ "/" +:+ t) = Some a.
Proof.
  intros Ht. induction a as [|c a IH].
  - change ("" +:+ "/" +:+ t) with (String "/" t). simpl.
    by rewrite (rsplit_last_none _ Ht).
  - rewrite sapp_cons. simpl. by rewrite IH.
Qed.

(** C6 (amended).  Descending from cursor P into a single segment S (its
    core is not empty and has no slash) and ascending once gives a client
    whose cursor is P without its trailing slashes, hence exactly P when P
    has none, and which resolves the same URLs as the client at P; when P is
    empty or only slashes the ascent does nothing and the client stays at
    /S.  This assumes that the server address is no prefix of the cursors
    involved, which the constructor would strip. *)
Theorem descend_ascend (c : Client) (S : value) :
  core (py_str S) <> "" ->
  Str.has_slash_in (core (py_str S)) = false ->
  String.prefix (server c)
    (Str.rstrip (base_url c) +:+ "/" +:+ core (py_str S)) = false ->
  (Str.rstrip (base_url c) <> "" ->
   String.prefix (server c) (Str.rstrip (base_url c)) = false ->
   Client.parent (c </> S) = with_base c (Str.rstrip (base_url c)) /\
   Client.full_url (Client.parent (c </> S)) = Client.full_url c) /\
  (Str.rstrip (base_url c) = "" ->
   Client.parent (c </> S) = c </> S /\
   base_url (c </> S) = "/" +:+ core (py_str S)).
Proof.
  intros Hne Hseg Hpre.
  assert (Hjoin : join_urls (base_url c) [S]
                  = Str.rstrip (base_url c) +:+ "/" +:+ core (py_str S)).
  { rewrite join_urls_cores. unfold join_cores, slash_core. simpl.
    destruct (core (py_str S)); [done | by rewrite sapp_empty_r]. }
  assert (Hnew : join_urls (base_url c) [S] <> "").
  { rewrite Hjoin. intros [_ E]%sapp_eq_empty. discriminate. }
  assert (Hdown : c </> S
                  = with_base c (Str.rstrip (base_url c) +:+ "/" +:+ core (py_str S))).
  { unfold Client.truediv, Client.at_, Client.or_own, Client_init, with_base.
    apply String.eqb_neq in Hnew. rewrite Hnew, Hjoin.
    by rewrite (strip_prefix_none _ _ Hpre). }
  assert (Hfix : Str.rstrip (Str.rstrip (base_url c) +:+ "/" +:+ core (py_str S))
                 = Str.rstrip (base_url c) +:+ "/" +:+ core (py_str S)).
  { rewrite <- Hjoin. apply join_urls_rstrip. }
  assert (Hup : Str.rsplit1_head
                  (Str.rstrip (Str.rstrip (base_url c) +:+ "/" +:+ core (py_str S)))
                = Str.rstrip (base_url c)).
  { rewrite Hfix. unfold Str.rsplit1_head. by rewrite rsplit_last_app. }
  split.
  - intros Hroot Hpre'. rewrite Hdown.
    assert (Hpar : Client.parent
                     (with_base c (Str.rstrip (base_url c) +:+ "/" +:+ core (py_str S)))
                   = with_base c (Str.rstrip (base_url c))).
    { unfold Client.parent, Client.at_, Client.or_own, Client_init, with_base.
      simpl. rewrite Hup. apply String.eqb_neq in Hroot. rewrite Hroot.
      by rewrite (strip_prefix_none _ _ Hpre'). }
    split; [exact Hpar |].
    rewrite Hpar, !full_url_cores. simpl. by rewrite slash_core_rstrip.
  - intros Hroot. rewrite Hdown. split; [| by rewrite Hroot].
    unfold Client.parent, Client.at_, Client.or_own, Client_init, with_base.
    simpl. rewrite Hup, Hroot. simpl.
    rewrite Hroot in Hpre. by rewrite (strip_prefix_none _ _ Hpre).
Qed.

Lemma descend_ascend_witness :
  let c := Client_init default_server "/api/docs" 0 false in
  Client.parent (c </> VInt 789) = c.
Proof.
  intros c.
  destruct (descend_ascend c (VInt 789)) as [H _];
    [discriminate | reflexivity | reflexivity |].
  destruct H as [H _]; [discriminate | reflexivity |].
  exact H.
Defined.

(** C6, as stated, fails: from a cursor with a trailing slash, which the
    default root cursor has, the round trip comes back without it. *)
Lemma descend_ascend_drops_trailing_slash :
  let c := Client_init default_server "/api/docs/" 0 false in
  let r := Client_init default_server default_base_url 0 false in
  base_url c = "/api/docs/" /\
  base_url (Client.parent (c </> VStr "x")) = "/api/docs" /\
  Client.parent (c </> VStr "x") <> c /\
  base_url r = "/api/" /\
  base_url (Client.parent (r </> VStr "orgs")) = "/api" /\
  Client.parent (r </> VStr "orgs") <> r.
Proof.
  split; [reflexivity |]. split; [reflexivity |]. split; [discriminate |].
  split; [reflexivity |]. split; [reflexivity | discriminate].
Qed.

(** * The retry loop *)

Lemma request_body_skipped c method url kw w :
  skipped c method = true ->
  Client.request_body c method url kw w =
  (Ok VNone,
   emit (EvLog Info "DRYRUN NOT sending %s request to %s"
           [LStr method; LStr (request_url c url)]) w).
Proof.
  unfold skipped, Client.request_body. intros ->. reflexivity.
Qed.

Lemma request_body_live c method url kw w :
  skipped c method = false ->
  Client.request_body c method url kw w =
  (attempt_result (request_url c url) (answer w (request_of c method url kw) 0),
   after_attempts w (request_of c method url kw) []).
Proof.
  unfold skipped, Client.request_body. intros ->.
  unfold answer, after_attempts, attempt_events, request_of, request_url.
  rewrite Nat.add_0_r, Nat.add_1_r. simpl.
  unfold mbind, M_bind, log, session_request, emit, next_call. simpl.
  rewrite <- app_assoc. simpl.
  destruct (net w (calls w) _) as [e | r]; simpl; [done |].
  destruct (Client.is_retry_status (status_code r)); [done |].
  destruct (body_json r) as [v |]; [| done].
  destruct (Str.contains "SQLITE_BUSY" (py_str (Client.error_field v))); [done |].
  by destruct (truthy (Client.error_field v) || negb (response_ok r)).
Qed.

Lemma retryable_result url o :
  retryable o = true ->
  attempt_result url o = Raise (failure_error o) /\
  is_ConnectionError (failure_error o) = true.
Proof.
  unfold retryable. destruct o as [e | r]; simpl.
  - rewrite orb_false_r. by intros ->.
  - destruct (Client.is_retry_status (status_code r)); [done |]. simpl.
    unfold busy_body. destruct (body_json r) as [[| | | | | |d] |]; try done.
    simpl. by intros ->.
Qed.

Lemma not_retryable_result url o e :
  retryable o = false ->
  attempt_result url o = Raise e -> is_ConnectionError e = false.
Proof.
  unfold retryable. intros [Ht Hb]%orb_false_iff.
  destruct o as [e' | r]; simpl in *.
  - intros [= <-]. exact Ht.
  - rewrite Ht. unfold busy_body in Hb.
    destruct (body_json r) as [v |]; [| by intros [= <-]].
    assert (Hv : Str.contains "SQLITE_BUSY" (py_str (Client.error_field v)) = false)
      by (destruct v; done).
    rewrite Hv.
    destruct (truthy (Client.error_field v) || negb (response_ok r));
      [by intros [= <-] | done].
Qed.

Lemma retry_loop_run c method url kw (es : list exn) :
  forall (j : nat) (w : world) (final : result value),
  skipped c method = false ->
  (j + length es <= 4)%nat ->
  (forall i e, es !! i = Some e ->
     attempt_result (request_url c url)
       (answer w (request_of c method url kw) i) = Raise e /\
     is_ConnectionError e = true) ->
  attempt_result (request_url c url)
    (answer w (request_of c method url kw) (length es)) = final ->
  ((j + length es = 4)%nat \/
   (forall e, final = Raise e -> is_ConnectionError e = false)) ->
  retry_loop 5 is_ConnectionError (Client.request_body c method url kw)
    (seq j (5 - j)) w
  = (final, after_attempts w (request_of c method url kw) es).
Proof.
  induction es as [|e es IH]; intros j w final Hlive Hj Hes Hfin Hlast.
  - simpl in Hj. replace (5 - j)%nat with (S (4 - j)) by lia.
    simpl. rewrite (request_body_live _ _ _ _ _ Hlive). simpl in Hfin.
    rewrite Hfin. destruct final as [v | e]; [done |].
    destruct (is_ConnectionError e) eqn:He; [| done].
    destruct Hlast as [Hlast | Hlast].
    + simpl in Hlast. replace j with 4%nat by lia. done.
    + by rewrite (Hlast e eq_refl) in He.
  - simpl in Hj. replace (5 - j)%nat with (S (5 - S j)) by lia.
    simpl. rewrite (request_body_live _ _ _ _ _ Hlive).
    destruct (Hes 0%nat e eq_refl) as [-> ->].
    replace (j =? 4)%nat with false by (symmetry; apply Nat.eqb_neq; lia).
    unfold mbind, M_bind, log, sleep. simpl.
    rewrite (IH (S j) _ final Hlive); [| simpl; lia | | |].
    + f_equal. unfold after_attempts, emit. simpl. f_equal; [lia |].
      rewrite <- !app_assoc. done.
    + intros i e' Hi. specialize (Hes (S i) e' Hi).
      unfold answer in *. simpl.
      by replace (calls w + 1 + i)%nat with (calls w + S i)%nat by lia.
    + unfold answer in *. simpl. simpl in Hfin.
      by replace (calls w + 1 + length es)%nat
        with (calls w + S (length es))%nat by lia.
    + destruct Hlast as [Hlast | Hlast]; [left; simpl in Hlast; lia | by right].
Qed.

Lemma failures_length w req k : length (failures w req k) = k.
Proof. unfold failures. by rewrite length_map, length_seq. Qed.

Lemma failures_lookup w req k i e :
  failures w req k !! i = Some e ->
  (i < k)%nat /\ e = failure_error (answer w req i).
Proof.
  unfold failures. rewrite list_lookup_fmap.
  destruct (seq 0 k !! i) as [n |] eqn:E; [| done].
  apply lookup_seq in E as [-> Hi]. simpl. by intros [= <-].
Qed.

(** The run of a call whose first [k] attempts fail retryably and whose
    next attempt is the last one made. *)
Lemma request_run c method url kw w k :
  skipped c method = false ->
  (k <= 4)%nat ->
  (forall i, (i < k)%nat ->
     retryable (answer w (request_of c method url kw) i) = true) ->
  (k = 4%nat \/ retryable (answer w (request_of c method url kw) k) = false) ->
  Client.request c method url kw w
  = (attempt_result (request_url c url) (answer w (request_of c method url kw) k),
     after_attempts w (request_of c method url kw)
       (failures w (request_of c method url kw) k)).
Proof.
  intros Hlive Hk Hfail Hlast.
  unfold Client.request, retry.
  apply (retry_loop_run c method url kw _ 0%nat w _ Hlive).
  - rewrite failures_length. lia.
  - intros i e [Hi ->]%failures_lookup.
    apply retryable_result. by apply Hfail.
  - by rewrite failures_length.
  - rewrite failures_length. destruct Hlast as [-> | Hlast]; [by left | right].
    intros e He. by apply (not_retryable_result _ _ _ Hlast He).
Qed.

Lemma request_body_calls c method url kw w :
  (calls (Client.request_body c method url kw w).2 <= calls w + 1)%nat.
Proof.
  destruct (skipped c method) eqn:E.
  - rewrite request_body_skipped by done. simpl. lia.
  - rewrite request_body_live by done. simpl. lia.
Qed.

Lemma retry_loop_calls n exc func :
  (forall w, (calls (func w).2 <= calls w + 1)%nat) ->
  forall todo w,
    (calls (retry_loop n exc func todo w).2 <= calls w + length todo)%nat.
Proof.
  intros Hf. induction todo as [|i todo IH]; intros w; simpl; [lia |].
  specialize (Hf w). destruct (func w) as [[v | e] w']; simpl in *; [lia |].
  destruct (exc e); [| simpl; lia].
  destruct (i =? n - 1)%nat; [simpl; lia |].
  unfold mbind, M_bind, log, sleep. simpl.
  etrans; [apply IH |]. simpl. lia.
Qed.

Lemma request_calls c method url kw w :
  (calls (Client.request c method url kw w).2 <= calls w + 5)%nat.
Proof.
  unfold Client.request, retry.
  etrans; [apply retry_loop_calls, request_body_calls |].
  by rewrite length_seq.
Qed.

Lemma transient_retryable o : transient o = true -> retryable o = true.
Proof. unfold retryable. by intros ->. Qed.

Lemma busy_retryable o : busy o = true -> retryable o = true.
Proof. unfold retryable. intros ->. apply orb_true_r. Qed.

Lemma succeeds_result url r v :
  succeeds r v ->
  retryable (NetResponse r) = false /\
  attempt_result url (NetResponse r) = Ok v.
Proof.
  intros (Hs & Hb & Hbusy & Herr & Hok). split.
  - unfold retryable, busy, busy_body. simpl. rewrite Hs, Hb. simpl.
    by destruct v.
  - simpl. by rewrite Hs, Hb, Hbusy, Herr, Hok.
Qed.

(** * The transport's contract *)

(** C1.  A call makes at most 5 requests.  When its first [k] attempts
    ([k] at most 4) fail with a connection failure or a 502, 503 or 504,
    each of them is followed by a warning in the log and a pause of one
    second before the next attempt; if the fifth fails in that way too, its
    failure, a [ConnectionError], is what the call raises, with no warning
    and no pause after it; if attempt [k+1] succeeds, its parsed value is
    returned. *)
Theorem request_retry_policy (c : Client) (method : string) (url : value)
    (kw : kwargs) (w : world) :
  let req := request_of c method url kw in
  (calls (Client.request c method url kw w).2 <= calls w + 5)%nat /\
  (forall k : nat,
     skipped c method = false ->
     (k <= 4)%nat ->
     (forall i, (i < k)%nat -> transient (answer w req i) = true) ->
     (k = 4%nat -> transient (answer w req 4) = true ->
      Client.request c method url kw w
      = (Raise (failure_error (answer w req 4)),
         after_attempts w req (failures w req 4)) /\
      is_ConnectionError (failure_error (answer w req 4)) = true) /\
     (forall r v, answer w req k = NetResponse r -> succeeds r v ->
      Client.request c method url kw w
      = (Ok v, after_attempts w req (failures w req k)))).
Proof.
  intros req. subst req. split; [apply request_calls |].
  intros k Hlive Hk Hfail. split.
  - intros -> H4.
    destruct (retryable_result (request_url c url) _ (transient_retryable _ H4))
      as [Hres Hce].
    split; [| exact Hce]. rewrite <- Hres.
    apply request_run; auto using transient_retryable.
  - intros r v Hr Hok.
    destruct (succeeds_result (request_url c url) r v Hok) as [Hnot Hres].
    rewrite <- Hres, <- Hr.
    apply request_run; [done | done | auto using transient_retryable |].
    right. by rewrite Hr.
Qed.

Lemma request_retry_policy_witness :
  let c := Client_init default_server default_base_url 0 false in
  let r := {| status_code := 200; body_json := Some (VList [VInt 1]) |} in
  (Client.request c "POST" (VStr "docs") no_kwargs (world0 (flaky 4 r) ∅)).1
  = Ok (VList [VInt 1]).
Proof.
  intros c r.
  destruct (request_retry_policy c "POST" (VStr "docs") no_kwargs
              (world0 (flaky 4 r) ∅)) as [_ H].
  destruct (H 4%nat) as [_ H'];
    [reflexivity | lia
    | intros [|[|[|[|i]]]] Hi; [reflexivity .. | lia] |].
  rewrite (H' r (VList [VInt 1])); [reflexivity | reflexivity |].
  repeat split.
Defined.

Lemma hard_response_not_retryable r :
  Client.is_retry_status (status_code r) = false ->
  match body_json r with
  | Some v => Str.contains "SQLITE_BUSY" (py_str (Client.error_field v)) = false
  | None => True
  end ->
  retryable (NetResponse r) = false.
Proof.
  intros Hs Hb. unfold retryable, busy, busy_body. simpl. rewrite Hs. simpl.
  destruct (body_json r) as [v |]; [| done]. by destruct v.
Qed.

(** C2 (amended).  When a call, after [k] retryable failures ([k] at most
    4), obtains a response whose status is not 502, 503 or 504, that attempt
    is the last one.  A body that does not parse as JSON raises the API
    error with no parsed body and the message Failed to parse JSON.  A
    parsed value whose error field has no contention marker raises the API
    error carrying the parsed value when the error field is truthy or the
    status is one of 400 to 599 (the response is not [ok]); with a falsy
    error field and any other status the parsed value is returned as it
    is. *)
Theorem request_response_outcome (c : Client) (method : string) (url : value)
    (kw : kwargs) (w : world) (k : nat) (r : Response) :
  let req := request_of c method url kw in
  let w' := after_attempts w req (failures w req k) in
  skipped c method = false ->
  (k <= 4)%nat ->
  (forall i, (i < k)%nat -> retryable (answer w req i) = true) ->
  answer w req k = NetResponse r ->
  Client.is_retry_status (status_code r) = false ->
  (body_json r = None ->
   Client.request c method url kw w
   = (Raise (APIError (request_url c url) r None (Some "Failed to parse JSON")),
      w')) /\
  (forall v,
     body_json r = Some v ->
     Str.contains "SQLITE_BUSY" (py_str (Client.error_field v)) = false ->
     (truthy (Client.error_field v) = true \/ response_ok r = false ->
      Client.request c method url kw w
      = (Raise (APIError (request_url c url) r (Some v) None), w')) /\
     (truthy (Client.error_field v) = false -> response_ok r = true ->
      Client.request c method url kw w = (Ok v, w'))).
Proof.
  intros req w' Hlive Hk Hfail Hr Hs. subst req w'.
  split; [intros Hb | intros v Hb Hbusy; split].
  - rewrite (request_run c method url kw w k Hlive Hk Hfail).
    + rewrite Hr. simpl. by rewrite Hs, Hb.
    + right. rewrite Hr. apply hard_response_not_retryable; by rewrite ?Hb.
  - intros Herr.
    rewrite (request_run c method url kw w k Hlive Hk Hfail).
    + rewrite Hr. simpl. rewrite Hs, Hb, Hbusy.
      by destruct Herr as [-> | ->]; rewrite ?orb_true_r.
    + right. rewrite Hr. apply hard_response_not_retryable; by rewrite ?Hb.
  - intros Herr Hok.
    rewrite (request_run c method url kw w k Hlive Hk Hfail).
    + rewrite Hr. simpl. by rewrite Hs, Hb, Hbusy, Herr, Hok.
    + right. rewrite Hr. apply hard_response_not_retryable; by rewrite ?Hb.
Qed.

Lemma request_response_outcome_witness :
  let c := Client_init default_server default_base_url 0 false in
  let body := VDict [("error", VStr "No such doc")] in
  let r := {| status_code := 200; body_json := Some body |} in
  (Client.request c "GET" (VStr "docs/7") no_kwargs (world0 (flaky 1 r) ∅)).1
  = Raise (APIError "https://docs.getgrist.com/api/docs/7" r (Some body) None).
Proof.
  intros c body r.
  destruct (request_response_outcome c "GET" (VStr "docs/7") no_kwargs
              (world0 (flaky 1 r) ∅) 1 r) as [_ H];
    [reflexivity | lia | intros [|i] Hi; [reflexivity | lia]
    | reflexivity | reflexivity |].
  destruct (H body) as [H' _]; [reflexivity | reflexivity |].
  rewrite H'; [reflexivity | by left].
Defined.

(** C2, as stated, fails: a response with a status outside 2xx and below
    400, a parsed body and no error field is returned, not raised. *)
Lemma request_returns_3xx_body :
  let c := Client_init default_server default_base_url 0 false in
  let body := VDict [("id", VInt 7)] in
  let r := {| status_code := 302; body_json := Some body |} in
  is_2xx (status_code r) = false /\
  Client.is_retry_status (status_code r) = false /\
  Client.error_field body = VNone /\
  (Client.get c (VStr "docs/7")
     {| params := None; json := None; allow_redirects := Some false |}
     (world0 (always r) ∅)).1 = Ok body.
Proof. repeat split. Qed.

(** C3 (amended).  In dry-run mode a call with any verb other than GET,
    HEAD and OPTIONS among them, sends nothing: it logs that the request is
    not sent and returns [None]; a GET runs exactly as it does with dry-run
    off. *)
Theorem dryrun_only_get_runs (c : Client) (method : string) (url : value)
    (kw : kwargs) (w : world) :
  dryrun c = true ->
  (method <> "GET" ->
   Client.request c method url kw w
   = (Ok VNone,
      emit (EvLog Info "DRYRUN NOT sending %s request to %s"
              [LStr method; LStr (request_url c url)]) w)) /\
  (method = "GET" ->
   Client.request c method url kw w
   = Client.request (with_dryrun c false) method url kw w).
Proof.
  intros Hdry. split.
  - intros Hm. unfold Client.request, retry. simpl.
    rewrite request_body_skipped; [done |].
    unfold skipped. rewrite Hdry. by apply String.eqb_neq in Hm as ->.
  - intros ->. unfold Client.request. f_equal.
    unfold Client.request_body. simpl. by rewrite andb_false_r.
Qed.

Lemma dryrun_only_get_runs_witness :
  let c := Client_init default_server default_base_url 0 true in
  let r := {| status_code := 200; body_json := Some (VInt 1) |} in
  let w := world0 (always r) ∅ in
  (Client.request c "DELETE" (VStr "docs/7") no_kwargs w).1 = Ok VNone /\
  calls (Client.request c "DELETE" (VStr "docs/7") no_kwargs w).2 = 0%nat /\
  (Client.request c "GET" (VStr "docs/7") no_kwargs w).1 = Ok (VInt 1).
Proof.
  intros c r w.
  destruct (dryrun_only_get_runs c "DELETE" (VStr "docs/7") no_kwargs w eq_refl)
    as [Hdel _].
  destruct (dryrun_only_get_runs c "GET" (VStr "docs/7") no_kwargs w eq_refl)
    as [_ Hget].
  rewrite (Hdel ltac:(discriminate)), (Hget eq_refl).
  repeat split.
Defined.

(** C3, as stated, fails: in dry-run mode HEAD and OPTIONS are not sent
    either, although the server would have answered. *)
Lemma dryrun_skips_head_and_options :
  let c := Client_init default_server default_base_url 0 true in
  let r := {| status_code := 200; body_json := Some (VInt 1) |} in
  let w := world0 (always r) ∅ in
  (Client.head c (VStr "") no_kwargs w).1 = Ok VNone /\
  calls (Client.head c (VStr "") no_kwargs w).2 = 0%nat /\
  (Client.options c (VStr "") no_kwargs w).1 = Ok VNone /\
  calls (Client.options c (VStr "") no_kwargs w).2 = 0%nat /\
  (Client.head (with_dryrun c false) (VStr "") no_kwargs w).1 = Ok (VInt 1) /\
  calls (Client.head (with_dryrun c false) (VStr "") no_kwargs w).2 = 1%nat.
Proof. repeat split. Qed.

(** C4.  A response whose parsed body is a mapping with SQLITE_BUSY
    somewhere in the string form of its error field is a retryable failure
    like a 503: when the first [k] attempts ([k] at most 4) all get such a
    response, each is followed by a warning and a pause of one second and
    the call goes on; if the fifth gets one too the call raises a
    [ConnectionError], never the API error; if attempt [k+1] succeeds its
    value is returned. *)
Theorem sqlite_busy_retried (c : Client) (method : string) (url : value)
    (kw : kwargs) (w : world) (k : nat) :
  let req := request_of c method url kw in
  skipped c method = false ->
  (k <= 4)%nat ->
  (forall i, (i < k)%nat -> busy (answer w req i) = true) ->
  (k = 4%nat -> busy (answer w req 4) = true ->
   Client.request c method url kw w
   = (Raise (failure_error (answer w req 4)),
      after_attempts w req (failures w req 4)) /\
   is_ConnectionError (failure_error (answer w req 4)) = true) /\
  (forall r v, answer w req k = NetResponse r -> succeeds r v ->
   Client.request c method url kw w
   = (Ok v, after_attempts w req (failures w req k))) /\
  (forall i r, (i < k)%nat -> answer w req i = NetResponse r ->
   Client.is_retry_status (status_code r) = false ->
   failures w req k !! i
   = Some (ConnectionError "Grist server returned SQLITE_BUSY")).
Proof.
  intros req Hlive Hk Hfail. subst req. split; [| split].
  - intros -> H4.
    destruct (retryable_result (request_url c url) _ (busy_retryable _ H4))
      as [Hres Hce].
    split; [| exact Hce]. rewrite <- Hres.
    apply request_run; auto using busy_retryable.
  - intros r v Hr Hok.
    destruct (succeeds_result (request_url c url) r v Hok) as [Hnot Hres].
    rewrite <- Hres, <- Hr.
    apply request_run; [done | done | auto using busy_retryable |].
    right. by rewrite Hr.
  - intros i r Hi Hr Hs. unfold failures.
    rewrite list_lookup_fmap, lookup_seq_lt by done. simpl.
    by rewrite Hr; simpl; rewrite Hs.
Qed.

Lemma sqlite_busy_retried_witness :
  let c := Client_init default_server default_base_url 0 false in
  let b := {| status_code := 500;
              body_json := Some (VDict [("error", VStr "SQLITE_BUSY: database is locked")]) |} in
  (Client.request c "POST" (VStr "docs") no_kwargs
     (world0 (contended 5 b b) ∅)).1
  = Raise (ConnectionError "Grist server returned SQLITE_BUSY").
Proof.
  intros c b.
  destruct (sqlite_busy_retried c "POST" (VStr "docs") no_kwargs
              (world0 (contended 5 b b) ∅) 4) as [H _];
    [reflexivity | lia | intros [|[|[|[|i]]]] Hi; [reflexivity .. | lia] |].
  destruct H as [H _]; [reflexivity | reflexivity |].
  rewrite H. reflexivity.
Defined.

(** * The resource proxies' payloads *)

(** C8.  The query parameters of a list call have a key for exactly the
    options that were passed, in the order filters, sort_by, limit: an
    omitted option has no key, a passed one has, whatever its value (a
    passed [None] included); filters are sent as the JSON text of the value,
    sort_by and limit as they were passed; and these parameters are what
    the GET carries. *)
Theorem list_params_keys (self : APIBase) (filters sort_by limit : option value) :
  let params := WithListRecords.list_params filters sort_by limit in
  dict_lookup "filters" params = (fun f => VStr (json_dumps f)) <$> filters /\
  dict_lookup "sort_by" params = sort_by /\
  dict_lookup "limit" params = limit /\
  dict_keys params
  = (match filters with Some _ => ["filters"] | None => [] end
     ++ match sort_by with Some _ => ["sort_by"] | None => [] end
     ++ match limit with Some _ => ["limit"] | None => [] end)%list /\
  WithListRecords.list self filters sort_by limit
  = Client.request (client self) "GET" (VStr "")
      {| params := Some params; json := None; allow_redirects := Some true |}.
Proof.
  destruct filters, sort_by, limit; repeat split.
Qed.

Lemma for_each_cons {A B} (f : A -> M B) x l w :
  for_each f (x :: l) w =
  match f x w with
  | (Ok y, w1) =>
      match for_each f l w1 with
      | (Ok ys, w2) => (Ok (y :: ys), w2)
      | (Raise e, w2) => (Raise e, w2)
      end
  | (Raise e, w1) => (Raise e, w1)
  end.
Proof.
  simpl. unfold mbind, M_bind, mret, M_ret.
  destruct (f x w) as [[y | e] w1]; [| done].
  by destruct (for_each f l w1) as [[ys | e] w2].
Qed.

Lemma pop_id_eq r w :
  Records.pop_id r w =
  match heap w !! r with
  | Some d =>
      match dict_lookup "id" d with
      | Some v => (Ok (v, r), set_heap (<[r := dict_remove "id" d]> (heap w)) w)
      | None => (Raise (KeyError "id"), w)
      end
  | None => (Raise (OtherError "not a dict"), w)
  end.
Proof.
  unfold Records.pop_id, mbind, M_bind, dict_pop.
  destruct (heap w !! r) as [d |]; [| done]. by destruct (dict_lookup "id" d).
Qed.

Lemma sent_modify_eq env w :
  Records.sent_modify env w =
  match heap w !! env.2 with
  | Some d => (Ok (VDict [("id", env.1); ("fields", VDict d)]), w)
  | None => (Raise (OtherError "not a dict"), w)
  end.
Proof.
  unfold Records.sent_modify, mbind, M_bind, dict_read.
  by destruct (heap w !! env.2).
Qed.

Lemma pop_missing records : forall w,
  (forall r, r ∈ records -> is_Some (heap w !! r)) ->
  (exists r d, r ∈ records /\ heap w !! r = Some d /\ dict_lookup "id" d = None) ->
  exists w',
    for_each Records.pop_id records w = (Raise (KeyError "id"), w') /\
    trace w' = trace w /\ calls w' = calls w.
Proof.
  induction records as [|r0 records IH]; intros w Hall (r & d & Hin & Hd & Hid).
  - by apply elem_of_nil in Hin.
  - rewrite for_each_cons, pop_id_eq.
    destruct (Hall r0 ltac:(left)) as [d0 Hd0]. rewrite Hd0.
    destruct (dict_lookup "id" d0) as [v |] eqn:Hv; [| by exists w].
    assert (Hne : r <> r0) by congruence.
    apply elem_of_cons in Hin as [-> | Hin]; [done |].
    destruct (IH (set_heap (<[r0:=dict_remove "id" d0]> (heap w)) w))
      as (w' & -> & Ht & Hc).
    + intros r' Hr'. simpl. rewrite lookup_insert. case_decide; [done |].
      apply Hall. by right.
    + exists r, d. simpl. by rewrite lookup_insert_ne.
    + by exists w'.
Qed.

Lemma popped_lookup_notin records : forall h r,
  r ∉ records -> popped h records !! r = h !! r.
Proof.
  induction records as [|r0 records IH]; intros h r Hr; [done |].
  apply not_elem_of_cons in Hr as [Hne Hr]. simpl.
  fold (popped (match h !! r0 with
                | Some d => <[r0:=dict_remove "id" d]> h
                | None => h
                end) records).
  rewrite IH by done. destruct (h !! r0); [| done].
  by rewrite lookup_insert_ne.
Qed.

Lemma pop_all records : forall w,
  NoDup records ->
  (forall r d, r ∈ records -> heap w !! r = Some d ->
               is_Some (dict_lookup "id" d)) ->
  (forall r, r ∈ records -> is_Some (heap w !! r)) ->
  for_each Records.pop_id records w
  = (Ok (map (fun r => (dict_get "id" (default [] (heap w !! r)), r)) records),
     set_heap (popped (heap w) records) w).
Proof.
  induction records as [|r0 records IH]; intros w Hnd Hid Hall.
  - by destruct w.
  - apply NoDup_cons in Hnd as [Hnotin Hnd].
    rewrite for_each_cons, pop_id_eq.
    destruct (Hall r0 ltac:(left)) as [d0 Hd0]. rewrite Hd0.
    destruct (Hid r0 d0 ltac:(left) Hd0) as [v Hv]. rewrite Hv.
    rewrite IH; [| done | |]; simpl.
    + rewrite Hd0. simpl. unfold dict_get at 2. rewrite Hv. simpl.
      f_equal. f_equal. f_equal.
      apply map_ext_in. intros r Hr%list_elem_of_In.
      rewrite lookup_insert_ne by (intros ->; done). done.
    + intros r d Hr. rewrite lookup_insert_ne by (intros ->; done).
      apply Hid. by right.
    + intros r Hr. rewrite lookup_insert_ne by (intros ->; done).
      apply Hall. by right.
Qed.

Lemma popped_lookup_in records : forall h r d,
  NoDup records -> r ∈ records -> h !! r = Some d ->
  popped h records !! r = Some (dict_remove "id" d).
Proof.
  induction records as [|r0 records IH]; intros h r d Hnd Hr Hd.
  - by apply elem_of_nil in Hr.
  - apply NoDup_cons in Hnd as [Hnotin Hnd]. simpl.
    fold (popped (match h !! r0 with
                  | Some d => <[r0:=dict_remove "id" d]> h
                  | None => h
                  end) records).
    apply elem_of_cons in Hr as [-> | Hr].
    + rewrite popped_lookup_notin by done. rewrite Hd.
      by rewrite lookup_insert_eq.
    + apply IH; [done | done |].
      destruct (h !! r0); [| done].
      rewrite lookup_insert_ne by (intros ->; done). done.
Qed.

Lemma read_all (envs : list (value * nat)) w :
  (forall env, env ∈ envs -> is_Some (heap w !! env.2)) ->
  for_each Records.sent_modify envs w
  = (Ok (map (fun env => VDict [("id", env.1);
                                ("fields", VDict (default [] (heap w !! env.2)))])
           envs), w).
Proof.
  induction envs as [|env envs IH]; intros Hall; [done |].
  rewrite for_each_cons, sent_modify_eq.
  destruct (Hall env ltac:(left)) as [d Hd]. rewrite Hd.
  rewrite IH by (intros; apply Hall; by right). simpl. by rewrite Hd.
Qed.

Lemma dict_remove_lookup k d : dict_lookup k (dict_remove k d) = None.
Proof.
  unfold dict_remove. induction d as [|[k' v] d IH]; [done |].
  rewrite filter_cons. simpl.
  destruct (String.eqb_spec k k') as [-> | Hne]; simpl; [done |].
  by apply String.eqb_neq in Hne as ->.
Qed.

(** X27.  What [modify] sends.  When some input mapping has no identifying
    key the call raises [KeyError] and nothing has been sent or logged.  For
    records that are distinct dictionaries, each with the key, the call is
    one PATCH of the cursor whose json is the mapping whose only key,
    records, holds one envelope per input record, in order, with the
    record's id under id and the rest of the record, the id taken out,
    under fields; its params are empty, or noparse when [parse_strings] is
    false; and by then every listed dictionary of the caller has lost its
    id, the others being as they were. *)
Theorem modify_payload (self : APIBase) (records : list nat)
    (parse_strings : bool) (w : world) :
  (forall r, r ∈ records -> is_Some (heap w !! r)) ->
  ((exists r d, r ∈ records /\ heap w !! r = Some d /\
                dict_lookup "id" d = None) ->
   exists w',
     Records.modify self records parse_strings w = (Raise (KeyError "id"), w') /\
     trace w' = trace w /\ calls w' = calls w) /\
  (NoDup records ->
   (forall r d, r ∈ records -> heap w !! r = Some d ->
                is_Some (dict_lookup "id" d)) ->
   exists h',
     Records.modify self records parse_strings w
     = Client.request (client self) "PATCH" (VStr "")
         {| params := Some (if parse_strings then []
                            else [("noparse", VStr "true")]);
            json := Some (VDict [("records",
                      VList (map (fun r =>
                                    VDict [("id",
                                            dict_get "id"
                                              (default [] (heap w !! r)));
                                           ("fields",
                                            VDict (dict_remove "id"
                                                     (default [] (heap w !! r))))])
                               records))]);
            allow_redirects := None |}
         {| net := net w; calls := calls w; heap := h'; trace := trace w |} /\
     (forall r d, r ∈ records -> heap w !! r = Some d ->
        h' !! r = Some (dict_remove "id" d) /\
        dict_lookup "id" (dict_remove "id" d) = None) /\
     (forall r, r ∉ records -> h' !! r = heap w !! r)).
Proof.
  intros Hall. split.
  - intros Hmiss. destruct (pop_missing records w Hall Hmiss) as (w' & Hpop & Ht & Hc).
    exists w'. unfold Records.modify, mbind, M_bind. by rewrite Hpop.
  - intros Hnd Hid. exists (popped (heap w) records). split; [| split].
    + unfold Records.modify. unfold mbind at 1, M_bind at 1.
      rewrite (pop_all records w Hnd Hid Hall).
      unfold mbind at 1, M_bind at 1. rewrite read_all.
      * unfold Client.patch, Records.send_kwargs, Records._noparse, set_heap.
        f_equal.
        { f_equal. f_equal. f_equal. f_equal. f_equal. f_equal.
          rewrite map_map. apply map_ext_in.
          intros r Hr%list_elem_of_In. simpl.
          destruct (Hall r Hr) as [d Hd]. rewrite Hd.
          by rewrite (popped_lookup_in records _ r d Hnd Hr Hd). }
      * intros env [r [-> Hr]]%list_elem_of_fmap. simpl.
        destruct (Hall r Hr) as [d Hd].
        by rewrite (popped_lookup_in records _ r d Hnd Hr Hd).
    + intros r d Hr Hd. split; [by apply popped_lookup_in |].
      apply dict_remove_lookup.
    + intros r Hr. by apply popped_lookup_notin.
Qed.

Lemma modify_payload_witness :
  let h : gmap nat pydict :=
    {[ 0%nat := [("id", VInt 1); ("age", VInt 4)];
       1%nat := [("id", VInt 2); ("pet", VStr "cat")] ]} in
  let w := world0 (always {| status_code := 200; body_json := Some (VInt 7) |}) h in
  (Records.modify test_records [0%nat; 1%nat] false w).1 = Ok (VInt 7) /\
  first_request (trace (Records.modify test_records [0%nat; 1%nat] false w).2)
  = Some {| req_session := 0; req_method := "PATCH";
            req_url := "https://docs.getgrist.com/api/docs/789/tables/Table1/records";
            req_kwargs :=
              {| params := Some [("noparse", VStr "true")];
                 json := Some (VDict [("records",
                   VList [VDict [("id", VInt 1);
                                 ("fields", VDict [("age", VInt 4)])];
                          VDict [("id", VInt 2);
                                 ("fields", VDict [("pet", VStr "cat")])]])]);
                 allow_redirects := None |} |}.
Proof.
  intros h w.
  destruct (modify_payload test_records [0%nat; 1%nat] false w) as [_ H].
  - intros r Hr. apply elem_of_cons in Hr as [-> | Hr]; [by eexists |].
    apply elem_of_cons in Hr as [-> | Hr]; [by eexists |].
    by apply elem_of_nil in Hr.
  - destruct H as (h' & -> & _ & _).
    + by apply (bool_decide_unpack (NoDup [0%nat; 1%nat])).
    + intros r d Hr. apply elem_of_cons in Hr as [-> | Hr];
        [intros [= <-]; by eexists |].
      apply elem_of_cons in Hr as [-> | Hr];
        [intros [= <-]; by eexists | by apply elem_of_nil in Hr].
    + split; reflexivity.
Defined.

(** * Side effects and results of the proxies *)

Lemma request_body_heap c method url kw w :
  heap (Client.request_body c method url kw w).2 = heap w.
Proof.
  destruct (skipped c method) eqn:E.
  - by rewrite request_body_skipped.
  - by rewrite request_body_live.
Qed.

Lemma retry_loop_heap n exc func :
  (forall w, heap (func w).2 = heap w) ->
  forall todo w, heap (retry_loop n exc func todo w).2 = heap w.
Proof.
  intros Hf. induction todo as [|i todo IH]; intros w; simpl; [done |].
  specialize (Hf w). destruct (func w) as [[v | e] w']; simpl in *; [done |].
  destruct (exc e); [| done].
  destruct (i =? n - 1)%nat; [done |].
  unfold mbind, M_bind, log, sleep. simpl. by rewrite IH.
Qed.

(** A call through the transport leaves the caller's dictionaries alone. *)
Lemma request_heap c method url kw w :
  heap (Client.request c method url kw w).2 = heap w.
Proof. apply retry_loop_heap. intros w'. apply request_body_heap. Qed.

Lemma sent_create_world records : forall w,
  (for_each Records.sent_create records w).2 = w.
Proof.
  induction records as [|r records IH]; intros w; [done |].
  rewrite for_each_cons.
  unfold Records.sent_create at 1, mbind, M_bind, dict_read.
  destruct (heap w !! r); [| done]. simpl.
  specialize (IH w). by destruct (for_each Records.sent_create records w) as [[ys | e] w2].
Qed.

(** [create] leaves the caller's dictionaries as they were. *)
Lemma create_heap self records parse_strings w :
  heap (Records.create self records parse_strings w).2 = heap w.
Proof.
  unfold Records.create, mbind, M_bind.
  pose proof (sent_create_world records w) as H.
  destruct (for_each Records.sent_create records w) as [[payload | e] w1];
    simpl in H; subst w1; [| done].
  apply request_heap.
Qed.

(** C7 fails on the code: [modify] takes the identifying key out of the
    caller's own dictionary, which [create] leaves as it was, so that the
    same call made again raises [KeyError]. *)
Theorem modify_mutates_caller_records :
  let recs := Table.Records (Doc.Table (GristAPI.Doc root (VInt 789)) (VStr "Table1")) in
  let h : gmap nat pydict := {[ 0%nat := [("id", VInt 1); ("age", VInt 4)] ]} in
  let w := world0 (always {| status_code := 200; body_json := Some VNone |}) h in
  (Records.modify recs [0%nat] true w).1 = Ok VNone /\
  heap (Records.modify recs [0%nat] true w).2 !! 0%nat = Some [("age", VInt 4)] /\
  heap (Records.modify recs [0%nat] true w).2 <> heap w /\
  (Records.modify recs [0%nat] true (Records.modify recs [0%nat] true w).2).1
    = Raise (KeyError "id") /\
  heap (Records.create recs [0%nat] true w).2 = heap w.
Proof.
  intros recs h w.
  split; [reflexivity |]. split; [reflexivity |].
  split; [| split; [reflexivity | apply create_heap]].
  intros E. apply (f_equal (fun m => m !! 0%nat)) in E. discriminate E.
Qed.

(** C9 fails on the code: a list that holds the same dictionary twice,
    a dictionary that carries its identifying key, makes [modify] raise
    [KeyError] with nothing sent, because the first visit took the key out
    of that very dictionary; two distinct dictionaries with the same
    content are both hoisted into the payload of one PATCH. *)
Theorem modify_same_record_twice :
  let d : pydict := [("id", VInt 1); ("age", VInt 4)] in
  let ok := always {| status_code := 200; body_json := Some VNone |} in
  let w := world0 ok {[ 0%nat := d ]} in
  let w2 := world0 ok {[ 0%nat := d; 1%nat := d ]} in
  heap w !! 0%nat = Some d /\
  dict_lookup "id" d = Some (VInt 1) /\
  (Records.modify test_records [0%nat; 0%nat] true w).1 = Raise (KeyError "id") /\
  trace (Records.modify test_records [0%nat; 0%nat] true w).2 = [] /\
  calls (Records.modify test_records [0%nat; 0%nat] true w).2 = 0%nat /\
  (Records.modify test_records [0%nat; 1%nat] true w2).1 = Ok VNone /\
  first_request (trace (Records.modify test_records [0%nat; 1%nat] true w2).2)
  = Some {| req_session := 0; req_method := "PATCH";
            req_url := "https://docs.getgrist.com/api/docs/789/tables/Table1/records";
            req_kwargs :=
              {| params := Some [];
                 json := Some (VDict [("records",
                   VList [VDict [("id", VInt 1);
                                 ("fields", VDict [("age", VInt 4)])];
                          VDict [("id", VInt 1);
                                 ("fields", VDict [("age", VInt 4)])]])]);
                 allow_redirects := None |} |}.
Proof. repeat split. Qed.

(** C10 fails on the code: [Records.delete] has no [return], so the value
    the transport hands back is lost, while [Org.delete], like every other
    method, passes it on. *)
Theorem records_delete_drops_result :
  let doc := GristAPI.Doc root (VInt 789) in
  let recs := Table.Records (Doc.Table doc (VStr "Table1")) in
  let v := VDict [("deleted", VInt 3)] in
  let w := world0 (always {| status_code := 200; body_json := Some v |}) ∅ in
  (Client.post (Client.parent (client recs)) (VStr "data/delete") no_kwargs w).1
    = Ok v /\
  (Records.delete recs w).1 = Ok VNone /\
  (Client.delete (client doc) (VStr "") no_kwargs w).1 = Ok v /\
  (Doc.delete doc w).1 = Ok v.
Proof. repeat split. Qed.

(** * More on joining and stripping *)

Lemma rstrip_length s : (String.length (Str.rstrip s) <= String.length s)%nat.
Proof.
  induction s as [|c s IH]; [done |]. rewrite rstrip_cons.
  destruct (Str.rstrip s); [destruct (Str.is_slash c) |]; simpl in *; lia.
Qed.

Lemma length_sapp a b :
  String.length (a +:+ b) = (String.length a + String.length b)%nat.
Proof.
  induction a as [|c a IH]; [done |]. rewrite sapp_cons. simpl. by rewrite IH.
Qed.

(** X1.  Joining in two steps is joining at once. *)
Theorem join_urls_flatten (u : string) (l1 l2 : list value) :
  join_urls (join_urls u l1) l2 = join_urls u (l1 ++ l2)%list.
Proof.
  rewrite (join_urls_cores (join_urls u l1)), join_urls_rstrip.
  rewrite !join_urls_cores, map_app, join_cores_app. apply sapp_assoc.
Qed.

(** X2.  A joined URL never ends with a slash. *)
Theorem join_urls_no_trailing_slash (u : string) (us : list value) (t : string) :
  join_urls u us <> t +:+ "/".
Proof.
  intros E. pose proof (join_urls_rstrip u us) as H. rewrite E in H.
  rewrite rstrip_app_empty in H by done.
  pose proof (rstrip_length t) as Hl. rewrite H, length_sapp in Hl.
  simpl in Hl. lia.
Qed.

(** X3.  A join looks at each later segment only through its core: two segment
    lists with the same cores join alike, and a segment that is empty or
    all slashes can be left out. *)
Theorem join_urls_by_cores (u : string) (us us' l1 l2 : list value) (s : value) :
  (map (fun x => core (py_str x)) us = map (fun x => core (py_str x)) us' ->
   join_urls u us = join_urls u us') /\
  (core (py_str s) = "" ->
   join_urls u (l1 ++ s :: l2)%list = join_urls u (l1 ++ l2)%list).
Proof.
  split.
  - intros H. rewrite !join_urls_cores. f_equal. unfold join_cores. f_equal.
    assert (Hsc : forall l : list value,
              map slash_core (map py_str l)
              = map (fun c => match c with EmptyString => EmptyString
                                         | c => "/" +:+ c end)
                    (map (fun x => core (py_str x)) l)).
    { intros l. rewrite !map_map. apply map_ext. intros x.
      unfold slash_core. by destruct (core (py_str x)). }
    by rewrite !Hsc, H.
  - intros H. rewrite !join_urls_cores, !map_app, !join_cores_app.
    f_equal. f_equal. rewrite map_cons.
    change (join_cores (py_str s :: map py_str l2))
      with (slash_core (py_str s) +:+ join_cores (map py_str l2)).
    unfold slash_core. by rewrite H.
Qed.

Lemma join_urls_by_cores_witness :
  join_urls "https://docs.getgrist.com/" [VStr "/api/"; VStr "//"; VInt 3]
  = join_urls "https://docs.getgrist.com/" [VStr "api"; VInt 3].
Proof.
  etrans;
    [exact (proj2 (join_urls_by_cores "https://docs.getgrist.com/" [] []
                     [VStr "/api/"] [VInt 3] (VStr "//")) eq_refl) |].
  apply (proj1 (join_urls_by_cores "https://docs.getgrist.com/"
                  [VStr "/api/"; VInt 3] [VStr "api"; VInt 3] [] [] VNone)).
  reflexivity.
Defined.

Lemma prefix_sapp p s : String.prefix p (p +:+ s) = true.
Proof.
  induction p as [|c p IH]; [by destruct s |]. rewrite sapp_cons. simpl.
  by destruct (Ascii.ascii_dec c c).
Qed.

Lemma drop_sapp p s : Str.drop (String.length p) (p +:+ s) = s.
Proof. induction p as [|c p IH]; [by destruct s | done]. Qed.

(** X4.  [strip_prefix] takes a leading copy of the prefix off, once; a client
    built with a base URL that has the server address in front is scoped to
    what follows it. *)
Theorem strip_prefix_app (p s : string) (session : nat) (dry : bool) :
  strip_prefix (p +:+ s) p = s /\
  base_url (Client_init p (p +:+ s) session dry) = s /\
  Client.full_url (Client_init p (p +:+ s) session dry) = join_urls p [VStr s].
Proof.
  assert (H : strip_prefix (p +:+ s) p = s).
  { unfold strip_prefix. by rewrite prefix_sapp, drop_sapp. }
  split; [exact H |]. unfold Client.full_url, Client_init. simpl.
  by rewrite H.
Qed.

(** * Rooted cursors under a server address with a scheme *)

Lemma prefix_plain srv b :
  plain_server srv = true -> starts_with_slash b = true ->
  String.prefix srv b = false.
Proof.
  destruct srv as [|c srv], b as [|c' b]; try done. simpl.
  intros Hc Hc'. destruct (Ascii.ascii_dec c c') as [-> |]; [| done].
  by rewrite Hc' in Hc.
Qed.

Lemma rooted_rstrip b :
  starts_with_slash b = true ->
  Str.rstrip b = "" \/ starts_with_slash (Str.rstrip b) = true.
Proof.
  destruct b as [|c b]; [done |]. simpl. intros Hc.
  destruct (Str.rstrip b); [rewrite Hc; by left | by right].
Qed.

Lemma rooted_slash_core s :
  slash_core s = "" \/ starts_with_slash (slash_core s) = true.
Proof. unfold slash_core. destruct (core s); [by left | by right]. Qed.

Lemma rooted_sapp a b :
  (a = "" \/ starts_with_slash a = true) ->
  (b = "" \/ starts_with_slash b = true) ->
  a +:+ b = "" \/ starts_with_slash (a +:+ b) = true.
Proof.
  intros [-> | Ha] Hb; [exact Hb |]. right. by destruct a.
Qed.

Lemma rooted_join b s :
  starts_with_slash b = true ->
  join_urls b [s] = "" \/ starts_with_slash (join_urls b [s]) = true.
Proof.
  intros Hb. rewrite join_urls_cores. apply rooted_sapp; [by apply rooted_rstrip |].
  unfold join_cores. simpl. rewrite sapp_empty_r. apply rooted_slash_core.
Qed.

Lemma rooted_rsplit x :
  (x = "" \/ starts_with_slash x = true) ->
  Str.rsplit1_head x = "" \/ starts_with_slash (Str.rsplit1_head x) = true.
Proof.
  intros [-> | Hx]; [by left |]. destruct x as [|c x]; [done |].
  unfold Str.rsplit1_head. simpl in *.
  destruct (Str.rsplit_last x); [by right |]. rewrite Hx. by left.
Qed.

Lemma rooted_or_own c b :
  starts_with_slash (base_url c) = true ->
  (b = "" \/ starts_with_slash b = true) ->
  starts_with_slash (Client.or_own c (Some b)) = true.
Proof.
  intros Hc [-> | Hb]; [done |]. unfold Client.or_own.
  by destruct (String.eqb_spec b "") as [-> |].
Qed.

Lemma at_plain c b :
  plain_server (server c) = true ->
  starts_with_slash (Client.or_own c b) = true ->
  Client.at_ c b = with_base c (Client.or_own c b).
Proof.
  intros Hs Hb. unfold Client.at_, Client_init, with_base.
  by rewrite (strip_prefix_none _ _ (prefix_plain _ _ Hs Hb)).
Qed.

Lemma truediv_plain c s :
  plain_server (server c) = true ->
  starts_with_slash (base_url c) = true ->
  c </> s = with_base c (Client.or_own c (Some (join_urls (base_url c) [s]))) /\
  starts_with_slash (base_url (c </> s)) = true.
Proof.
  intros Hs Hb.
  pose proof (rooted_or_own c _ Hb (rooted_join _ s Hb)) as Hr.
  unfold Client.truediv. rewrite (at_plain _ _ Hs Hr). by split.
Qed.

Lemma parent_plain c :
  plain_server (server c) = true ->
  starts_with_slash (base_url c) = true ->
  Client.parent c
  = with_base c (Client.or_own c
                   (Some (Str.rsplit1_head (Str.rstrip (base_url c))))) /\
  starts_with_slash (base_url (Client.parent c)) = true.
Proof.
  intros Hs Hb.
  pose proof (rooted_or_own c _ Hb (rooted_rsplit _ (rooted_rstrip _ Hb))) as Hr.
  unfold Client.parent. rewrite (at_plain _ _ Hs Hr). by split.
Qed.

Lemma no_strip_chain_plain segs : forall c,
  plain_server (server c) = true ->
  starts_with_slash (base_url c) = true ->
  no_strip_chain c segs = true.
Proof.
  induction segs as [|s segs IH]; intros c Hs Hb; [done |]. simpl.
  destruct (truediv_plain c s Hs Hb) as [_ Hb'].
  rewrite (IH (c </> s)) by done. rewrite andb_true_r.
  unfold no_strip. apply negb_true_iff, prefix_plain; [done |].
  apply rooted_or_own; [done | by apply rooted_join].
Qed.

(** X5.  Under a server address that does not start with a slash, from a cursor
    that does, no descent is ever cut by the constructor, and a call after
    any chain of descents goes to the server address followed by the cores
    of the cursor, the descents and the call's path, one slash before
    each. *)
Theorem resolved_url_rooted (c : Client) (segs : list value) (url : value) :
  plain_server (server c) = true ->
  starts_with_slash (base_url c) = true ->
  request_url (descend c segs) url
  = Str.rstrip (server c) +:+
    join_cores (base_url c :: map py_str segs ++ [py_str url])%list.
Proof.
  intros Hs Hb.
  destruct (descend_cores segs c (no_strip_chain_plain segs c Hs Hb)) as [Hsrv Hc].
  rewrite request_url_cores, Hsrv. f_equal.
  change [base_url (descend c segs); py_str url]
    with ([base_url (descend c segs)] ++ [py_str url])%list.
  change (base_url c :: map py_str segs ++ [py_str url])%list
    with ((base_url c :: map py_str segs) ++ [py_str url])%list.
  rewrite !join_cores_app. f_equal.
  rewrite <- Hc. unfold join_cores. simpl. by rewrite sapp_empty_r.
Qed.

Lemma resolved_url_rooted_witness :
  request_url
    (descend (client root) [VStr "orgs"; VInt 2; VStr "workspaces/"])
    (VStr "")
  = "https://docs.getgrist.com/api/orgs/2/workspaces".
Proof.
  rewrite (resolved_url_rooted (client root)
             [VStr "orgs"; VInt 2; VStr "workspaces/"] (VStr "")
             eq_refl eq_refl).
  reflexivity.
Defined.

(** X6.  Whatever the moves, the client reached has the server address, the
    session and the dry-run flag of the one it came from; and under a server
    address that does not start with a slash, descents, ascents and copies
    from a rooted cursor lead to a rooted cursor, never to an empty one. *)
Theorem navigate_keeps (c : Client) (moves : list move) :
  (server (navigate c moves) = server c /\
   session (navigate c moves) = session c /\
   dryrun (navigate c moves) = dryrun c) /\
  (plain_server (server c) = true ->
   starts_with_slash (base_url c) = true ->
   forallb inner moves = true ->
   starts_with_slash (base_url (navigate c moves)) = true).
Proof.
  unfold navigate. revert c.
  induction moves as [|m moves IH]; intros c; [done |]. simpl.
  destruct (IH (step c m)) as [(H1 & H2 & H3) H4].
  assert (Hstep : server (step c m) = server c /\
                  session (step c m) = session c /\
                  dryrun (step c m) = dryrun c) by (by destruct m).
  destruct Hstep as (E1 & E2 & E3).
  split; [by rewrite H1, H2, H3 |].
  intros Hs Hb [Hm Hall]%andb_true_iff. apply H4; [by rewrite E1 | | done].
  destruct m as [s | | [b |]]; simpl; try done.
  - by apply truediv_plain.
  - by apply parent_plain.
  - unfold Client.at_, Client_init. simpl.
    by rewrite (strip_prefix_none _ _ (prefix_plain _ _ Hs Hb)).
Qed.

Lemma navigate_keeps_witness :
  starts_with_slash
    (base_url (navigate (client root) [Down (VStr "docs"); Up; Up; At None]))
  = true.
Proof.
  apply (proj2 (navigate_keeps (client root)
                  [Down (VStr "docs"); Up; Up; At None]));
    reflexivity.
Defined.

(** * Single segments *)

Lemma no_slash_lstrip t : Str.has_slash_in t = false -> Str.lstrip t = t.
Proof. destruct t as [|c t]; [done |]. simpl. by intros [-> _]%orb_false_iff. Qed.

Lemma no_slash_rstrip t : Str.has_slash_in t = false -> Str.rstrip t = t.
Proof.
  induction t as [|c t IH]; [done |]. simpl.
  intros [Hc Ht]%orb_false_iff. rewrite (IH Ht), Hc. by destruct t.
Qed.

Lemma no_slash_core t : Str.has_slash_in t = false -> core t = t.
Proof.
  intros H. unfold core. by rewrite (no_slash_lstrip _ H), (no_slash_rstrip _ H).
Qed.

Lemma rstrip_sapp_segment a t :
  t <> "" -> Str.has_slash_in t = false ->
  Str.rstrip (a +:+ "/" +:+ t) = a +:+ "/" +:+ t.
Proof.
  intros Hne Ht.
  assert (H : Str.rstrip ("/" +:+ t) = "/" +:+ t).
  { rewrite rstrip_app_nonempty; by rewrite (no_slash_rstrip _ Ht). }
  rewrite rstrip_app_nonempty; by rewrite H.
Qed.

Lemma split_last_app a t :
  Str.has_slash_in t = false -> Str.split_last (a +:+ "/" +:+ t) = t.
Proof.
  intros Ht. induction a as [|c a IH].
  - change ("" +:+ "/" +:+ t) with (String "/" t). simpl. by rewrite Ht.
  - rewrite sapp_cons. simpl.
    assert (H : Str.has_slash_in (a +:+ "/" +:+ t) = true).
    { clear IH. induction a as [|c' a IH']; [done |].
      rewrite sapp_cons. simpl. rewrite IH'. apply orb_true_r. }
    by rewrite H.
Qed.

(** A descent into a single segment, and the ascent from it, under a server
    address that does not start with a slash. *)
Lemma descend_single c S :
  plain_server (server c) = true ->
  starts_with_slash (base_url c) = true ->
  core (py_str S) <> "" ->
  c </> S = with_base c (Str.rstrip (base_url c) +:+ "/" +:+ core (py_str S)).
Proof.
  intros Hs Hb Hne. destruct (truediv_plain c S Hs Hb) as [-> _].
  f_equal. unfold Client.or_own. rewrite join_urls_cores.
  unfold join_cores, slash_core. simpl.
  destruct (core (py_str S)) eqn:E; [done |]. rewrite sapp_empty_r.
  destruct (String.eqb_spec (Str.rstrip (base_url c) +:+ "/" +:+ String a s) "")
    as [[_ H]%sapp_eq_empty |]; done.
Qed.

Lemma ascend_single c a t :
  plain_server (server c) = true ->
  (a = "" \/ starts_with_slash a = true) ->
  t <> "" -> Str.has_slash_in t = false ->
  Client.parent (with_base c (a +:+ "/" +:+ t))
  = with_base c (if String.eqb a "" then "/" +:+ t else a).
Proof.
  intros Hs Ha Hne Ht.
  assert (Hb : starts_with_slash (a +:+ "/" +:+ t) = true).
  { destruct Ha as [-> | Ha]; [done | by destruct a]. }
  destruct (parent_plain (with_base c (a +:+ "/" +:+ t)) Hs Hb) as [-> _].
  unfold with_base, Client.or_own. simpl.
  rewrite rstrip_sapp_segment by done.
  unfold Str.rsplit1_head. rewrite rsplit_last_app by done.
  destruct (String.eqb_spec a "") as [-> |]; done.
Qed.

(** X7.  Ascending from a cursor of one segment does nothing: the cursor never
    becomes the bare slash or the empty path. *)
Theorem parent_of_top (c : Client) (t : string) :
  plain_server (server c) = true ->
  base_url c = "/" +:+ t ->
  t <> "" -> Str.has_slash_in (Str.rstrip t) = false ->
  Client.parent c = c.
Proof.
  intros Hs Hb Hne Ht.
  assert (Hr : starts_with_slash (base_url c) = true) by (by rewrite Hb).
  destruct (parent_plain c Hs Hr) as [-> _].
  transitivity (with_base c (base_url c)); [| by destruct c]. f_equal.
  unfold Client.or_own. rewrite Hb.
  change ("/" +:+ t) with (String "/" t). rewrite rstrip_cons.
  destruct (Str.rstrip t) as [|c' r] eqn:E; [done |].
  unfold Str.rsplit1_head.
  change (Str.rsplit_last (String "/" (String c' r)))
    with (match Str.rsplit_last (String c' r) with
          | Some h => Some (String "/"%char h)
          | None => Some EmptyString
          end).
  by rewrite (rsplit_last_none _ Ht).
Qed.

Lemma parent_of_top_witness :
  Client.parent (Client_init default_server "/api/" 0 false)
  = Client_init default_server "/api/" 0 false.
Proof.
  rewrite (parent_of_top (Client_init default_server "/api/" 0 false) "api/");
    [reflexivity | reflexivity | reflexivity | discriminate | reflexivity].
Defined.

Lemma uint_no_slash d :
  Str.has_slash_in (NilEmpty.string_of_uint d) = false.
Proof. induction d; simpl; done. Qed.

Lemma of_Z_segment n :
  Str.has_slash_in (Str.of_Z n) = false /\ Str.of_Z n <> "".
Proof.
  unfold Str.of_Z, NilZero.string_of_int, NilZero.string_of_uint.
  destruct (Z.to_int n) as [d | d]; split;
    try (destruct d; simpl; first [done | apply uint_no_slash]);
    destruct d; done.
Qed.

(** X8.  Descending into an integer id appends a slash and the decimal digits
    of the id, and ascending gives back the cursor (without its trailing
    slashes). *)
Theorem descend_int (c : Client) (n : Z) :
  plain_server (server c) = true ->
  starts_with_slash (base_url c) = true ->
  c </> VInt n
  = with_base c (Str.rstrip (base_url c) +:+ "/" +:+ Str.of_Z n) /\
  (Str.rstrip (base_url c) <> "" ->
   Client.parent (c </> VInt n) = with_base c (Str.rstrip (base_url c))).
Proof.
  intros Hs Hb. destruct (of_Z_segment n) as [Hn Hne].
  assert (Hc : core (py_str (VInt n)) = Str.of_Z n) by (by apply no_slash_core).
  assert (Hd : c </> VInt n
               = with_base c (Str.rstrip (base_url c) +:+ "/" +:+ Str.of_Z n)).
  { rewrite <- Hc. apply descend_single; [done | done |]. by rewrite Hc. }
  split; [exact Hd |]. intros Hroot. rewrite Hd.
  rewrite ascend_single; [| done | by apply rooted_rstrip | done | done].
  by apply String.eqb_neq in Hroot as ->.
Qed.

Lemma descend_int_witness :
  Client.parent (Client_init default_server "/api/docs" 0 false </> VInt (-3))
  = Client_init default_server "/api/docs" 0 false.
Proof.
  rewrite (proj2 (descend_int (Client_init default_server "/api/docs" 0 false)
                    (-3) eq_refl eq_refl));
    [reflexivity | discriminate].
Defined.

(** * Where the proxies point *)

Lemma with_base_own c : with_base c (base_url c) = c.
Proof. by destruct c. Qed.

Lemma apibase_at_plain c :
  plain_server (server c) = true ->
  starts_with_slash (base_url c) = true ->
  APIBase.at_ c = {| client := c |}.
Proof.
  intros Hs Hb. unfold APIBase.at_. f_equal.
  rewrite at_plain by done. apply with_base_own.
Qed.

Lemma route_step c s :
  plain_server (server c) = true ->
  starts_with_slash (base_url c) = true ->
  client (APIBase.at_ (c </> s)) = c </> s /\
  Client.full_url (c </> s) = Client.full_url c +:+ slash_core (py_str s) /\
  plain_server (server (c </> s)) = true /\
  starts_with_slash (base_url (c </> s)) = true.
Proof.
  intros Hs Hb. destruct (truediv_plain c s Hs Hb) as [_ Hb'].
  rewrite apibase_at_plain by done. split; [done |]. split; [| by split].
  rewrite !full_url_cores, truediv_cores, sapp_assoc; [done |].
  unfold no_strip. apply negb_true_iff, prefix_plain; [done |].
  apply rooted_or_own; [done | by apply rooted_join].
Qed.

(** X9.  The routes of the resource tree: under a server address that does not
    start with a slash and from a rooted cursor, every proxy is scoped to
    the URL of the proxy it was made from, followed by its fixed path word
    or by the core of the id it was given. *)
Theorem proxy_routes (api : APIBase)
    (org_id workspace_id doc_id table_id attachment_id : value) :
  plain_server (server (client api)) = true ->
  starts_with_slash (base_url (client api)) = true ->
  let U := Client.full_url (client api) in
  let url p := Client.full_url (client p) in
  let id v := slash_core (py_str v) in
  url (GristAPI.Orgs api) = U +:+ "/orgs" /\
  url (GristAPI.Org api org_id) = U +:+ "/orgs" +:+ id org_id /\
  url (Org.Workspaces (GristAPI.Org api org_id))
    = U +:+ "/orgs" +:+ id org_id +:+ "/workspaces" /\
  url (GristAPI.Workspace api workspace_id)
    = U +:+ "/workspaces" +:+ id workspace_id /\
  url (Workspace.Docs (GristAPI.Workspace api workspace_id))
    = U +:+ "/workspaces" +:+ id workspace_id +:+ "/docs" /\
  url (GristAPI.Doc api doc_id) = U +:+ "/docs" +:+ id doc_id /\
  url (Doc.Table (GristAPI.Doc api doc_id) table_id)
    = U +:+ "/docs" +:+ id doc_id +:+ "/tables" +:+ id table_id /\
  url (Table.Records (Doc.Table (GristAPI.Doc api doc_id) table_id))
    = U +:+ "/docs" +:+ id doc_id +:+ "/tables" +:+ id table_id +:+ "/records" /\
  url (Doc.Attachments (GristAPI.Doc api doc_id))
    = U +:+ "/docs" +:+ id doc_id +:+ "/attachments" /\
  url (Doc_Attachment (GristAPI.Doc api doc_id) attachment_id)
    = U +:+ "/docs" +:+ id doc_id +:+ "/attachments" +:+ id attachment_id.
Proof.
  intros Hs Hb U url id. subst U url id.
  unfold GristAPI.Org, GristAPI.Orgs, Orgs.Org, Org.Workspaces,
    GristAPI.Workspace, Workspace.Docs, GristAPI.Doc, Doc.Table,
    Table.Records, Doc_Attachment, Attachments.Attachment, Doc.Attachments,
    APIBase.truediv.
  set (c := client api) in *.
  destruct (route_step c (VStr "orgs") Hs Hb) as (Eo & Uo & So & Bo).
  destruct (route_step _ org_id So Bo) as (Eoi & Uoi & Soi & Boi).
  destruct (route_step _ (VStr "workspaces") Soi Boi) as (Eow & Uow & _ & _).
  destruct (route_step c (VStr "workspaces") Hs Hb) as (Ew & Uw & Sw & Bw).
  destruct (route_step _ workspace_id Sw Bw) as (Ewi & Uwi & Swi & Bwi).
  destruct (route_step _ (VStr "docs") Swi Bwi) as (Ewd & Uwd & _ & _).
  destruct (route_step c (VStr "docs") Hs Hb) as (Ed & Ud & Sd & Bd).
  destruct (route_step _ doc_id Sd Bd) as (Edi & Udi & Sdi & Bdi).
  destruct (route_step _ (VStr "tables") Sdi Bdi) as (Et & Ut & St & Bt).
  destruct (route_step _ table_id St Bt) as (Eti & Uti & Sti & Bti).
  destruct (route_step _ (VStr "attachments") Sdi Bdi) as (Ea & Ua & Sa & Ba).
  rewrite ?Eo, ?Edi, ?Ewi, ?Eoi.
  rewrite ?Eti, ?Ea.
  destruct (route_step _ (VStr "records") Sti Bti) as (Er & Ur & _ & _).
  destruct (route_step _ attachment_id Sa Ba) as (Eai & Uai & _ & _).
  rewrite ?Eow, ?Ewd, ?Er, ?Eai.
  rewrite ?Uow, ?Uwd, ?Ur, ?Uai, ?Uti, ?Ut, ?Ua, ?Udi, ?Ud, ?Uwi, ?Uw, ?Uoi, ?Uo.
  rewrite <- ?sapp_assoc.
  repeat split.
Qed.

Lemma proxy_routes_witness :
  Client.full_url
    (client (Table.Records (Doc.Table (GristAPI.Doc root (VInt 789)) (VStr "Table1"))))
  = "https://docs.getgrist.com/api/docs/789/tables/Table1/records".
Proof.
  destruct (proxy_routes root VNone VNone (VInt 789) (VStr "Table1") VNone
              eq_refl eq_refl) as (_ & _ & _ & _ & _ & _ & _ & H & _).
  rewrite H. reflexivity.
Defined.

Lemma table_client doc table_id :
  plain_server (server (client doc)) = true ->
  starts_with_slash (base_url (client doc)) = true ->
  core (py_str table_id) <> "" ->
  client (Doc.Table doc table_id)
  = with_base (client doc)
      ((Str.rstrip (base_url (client doc)) +:+ "/" +:+ "tables")
       +:+ "/" +:+ core (py_str table_id)).
Proof.
  intros Hs Hb Hne. unfold Doc.Table, APIBase.truediv.
  destruct (route_step (client doc) (VStr "tables") Hs Hb) as (_ & _ & St & Bt).
  destruct (route_step _ table_id St Bt) as (-> & _ & _ & _).
  rewrite (descend_single (client doc) (VStr "tables") Hs Hb) in * by done.
  rewrite descend_single by done. unfold with_base. simpl. f_equal.
  change (core "tables") with "tables".
  by rewrite rstrip_sapp_segment.
Qed.

Lemma table_id_core doc table_id :
  plain_server (server (client doc)) = true ->
  starts_with_slash (base_url (client doc)) = true ->
  core (py_str table_id) <> "" ->
  Str.has_slash_in (core (py_str table_id)) = false ->
  Table.table_id (Doc.Table doc table_id) = core (py_str table_id).
Proof.
  intros Hs Hb Hne Hseg. unfold Table.table_id.
  rewrite table_client by done. simpl.
  rewrite rstrip_sapp_segment by done. by apply split_last_app.
Qed.

(** X10.  The table proxy made for an id knows that id: [table_id] is the core of
    the id the proxy was made with, when that core is a single segment. *)
Theorem table_id_of_table (doc : APIBase) (table_id : value) :
  plain_server (server (client doc)) = true ->
  starts_with_slash (base_url (client doc)) = true ->
  core (py_str table_id) <> "" ->
  Str.has_slash_in (core (py_str table_id)) = false ->
  Table.table_id (Doc.Table doc table_id) = core (py_str table_id).
Proof. apply table_id_core. Qed.

Lemma table_id_of_table_witness :
  Table.table_id (Doc.Table (GristAPI.Doc root (VInt 789)) (VStr "/Table1/"))
  = "Table1".
Proof.
  rewrite (table_id_of_table (GristAPI.Doc root (VInt 789)) (VStr "/Table1/"));
    [reflexivity | reflexivity | reflexivity | discriminate | reflexivity].
Defined.

(** X11.  A table's CSV download is the document's: a GET of download/csv under
    the document's cursor, with the table's id (the core of the id the
    proxy was made with, as a string) as the tableId parameter. *)
Theorem table_download_csv (doc : APIBase) (table_id : value) (w : world) :
  plain_server (server (client doc)) = true ->
  starts_with_slash (base_url (client doc)) = true ->
  Str.rstrip (base_url (client doc)) <> "" ->
  core (py_str table_id) <> "" ->
  Str.has_slash_in (core (py_str table_id)) = false ->
  Table.download_csv (Doc.Table doc table_id) w
  = Client.get (with_base (client doc) (Str.rstrip (base_url (client doc))))
      (VStr "download/csv")
      (with_params [("tableId", VStr (core (py_str table_id)))]) w.
Proof.
  intros Hs Hb Hroot Hne Hseg. unfold Table.download_csv, Doc.download_csv.
  rewrite table_id_core by done.
  rewrite table_client by done.
  assert (Hr : starts_with_slash (Str.rstrip (base_url (client doc))) = true).
  { by destruct (rooted_rstrip _ Hb). }
  rewrite ascend_single; [| done | | done | done].
  2:{ right. by destruct (Str.rstrip (base_url (client doc))). }
  replace (((Str.rstrip (base_url (client doc)) +:+ "/" +:+ "tables") =? "")%string)
    with false.
  2:{ symmetry. apply String.eqb_neq. intros [E _]%sapp_eq_empty. done. }
  rewrite ascend_single; [| done | by right | done | done].
  apply String.eqb_neq in Hroot as ->.
  rewrite apibase_at_plain; done.
Qed.

Lemma table_download_csv_witness :
  let doc := GristAPI.Doc root (VInt 789) in
  let w := world0 (always {| status_code := 200; body_json := Some (VStr "a,b") |}) ∅ in
  (Table.download_csv (Doc.Table doc (VStr "Table1")) w).1 = Ok (VStr "a,b").
Proof.
  intros doc w.
  rewrite (table_download_csv doc (VStr "Table1") w);
    [reflexivity | reflexivity | reflexivity | discriminate | discriminate
    | reflexivity].
Defined.

(** * Optional arguments *)

Lemma dict_set_fresh k v d :
  k ∉ map fst d -> dict_set k v d = (d ++ [(k, v)])%list.
Proof.
  induction d as [|[k' v'] d IH]; [done |]. simpl.
  intros [Hne Hd]%not_elem_of_cons.
  apply String.eqb_neq in Hne as ->. by rewrite IH.
Qed.

Lemma passed_kwargs_acc kwargs : forall acc,
  NoDup (map fst acc ++ map fst kwargs)%list ->
  foldl (fun d kv => match kv.2 with Some v => dict_set kv.1 v d | None => d end)
    acc kwargs
  = (acc ++ omap (fun kv => pair kv.1 <$> kv.2) kwargs)%list.
Proof.
  induction kwargs as [|[k [v |]] kwargs IH]; intros acc Hnd; simpl.
  - by rewrite app_nil_r.
  - apply NoDup_app in Hnd as Hnd'. destruct Hnd' as (_ & Hfresh & _).
    rewrite dict_set_fresh.
    + rewrite IH; [by rewrite <- app_assoc |].
      by rewrite map_app, <- app_assoc.
    + intros Hin. apply (Hfresh k Hin). by left.
  - apply IH. apply NoDup_app in Hnd as (H1 & H2 & H3%NoDup_cons).
    apply NoDup_app. split; [done |]. split; [| by destruct H3].
    intros x Hx Hx'. apply (H2 x Hx). by right.
Qed.

(** X12.  [passed_kwargs] keeps, in order, exactly the keyword arguments that
    were passed, each with the value it was passed with. *)
Theorem passed_kwargs_passed (kwargs : list (string * option value)) :
  NoDup (map fst kwargs) ->
  passed_kwargs kwargs = omap (fun kv => pair kv.1 <$> kv.2) kwargs.
Proof. intros H. unfold passed_kwargs. by rewrite passed_kwargs_acc. Qed.

Lemma passed_kwargs_passed_witness :
  passed_kwargs [("name", None); ("isPinned", Some VNone); ("x", Some (VInt 1))]
  = [("isPinned", VNone); ("x", VInt 1)].
Proof.
  rewrite passed_kwargs_passed; [reflexivity |].
  by apply (bool_decide_unpack (NoDup (map fst
       [("name", None : option value); ("isPinned", Some VNone);
        ("x", Some (VInt 1))]))).
Defined.

(** X13.  The partial updates carry only what was passed: the delta of an access
    update has a key for users and for maxInheritedRole exactly when each
    was passed, an organization's access update never has the second, and a
    document's [modify] sends exactly the passed ones of name and
    isPinned. *)
Theorem partial_update_payloads (self : APIBase)
    (users maxInheritedRole name isPinned : option value) (u : value) :
  (exists delta,
     WithAccess.update_user_access self users maxInheritedRole
     = Client.request (client self) "PATCH" (VStr "access")
         (with_json (VDict [("delta", VDict delta)])) /\
     dict_lookup "users" delta = users /\
     dict_lookup "maxInheritedRole" delta = maxInheritedRole /\
     length delta = length (omap id [users; maxInheritedRole])) /\
  Org.update_user_access self u
  = Client.request (client self) "PATCH" (VStr "access")
      (with_json (VDict [("delta", VDict [("users", u)])])) /\
  (exists fields,
     Doc.modify self name isPinned
     = Client.request (client self) "PATCH" (VStr "")
         (with_json (VDict fields)) /\
     dict_lookup "name" fields = name /\
     dict_lookup "isPinned" fields = isPinned /\
     length fields = length (omap id [name; isPinned])).
Proof.
  split; [| split; [done |]].
  - eexists. split; [reflexivity |]. by destruct users, maxInheritedRole.
  - eexists. split; [reflexivity |]. by destruct name, isPinned.
Qed.

(** * Records in more detail *)

Lemma sent_create_all records w :
  (forall r, r ∈ records -> is_Some (heap w !! r)) ->
  for_each Records.sent_create records w
  = (Ok (map (fun r => VDict [("fields", VDict (default [] (heap w !! r)))])
           records), w).
Proof.
  induction records as [|r records IH]; intros Hall; [done |].
  rewrite for_each_cons.
  unfold Records.sent_create at 1, mbind, M_bind, dict_read.
  destruct (Hall r ltac:(left)) as [d Hd]. rewrite Hd.
  fold (@mret M _ value). unfold mret at 1, M_ret at 1.
  rewrite IH by (intros; apply Hall; by right). simpl. by rewrite Hd.
Qed.

(** X14.  [create] wraps each record, as it is, the identifying key included when
    there is one, as the fields of an envelope, keeps the order, asks the
    server not to parse strings exactly when [parse_strings] is false, and
    leaves the caller's dictionaries as they were. *)
Theorem create_payload (self : APIBase) (records : list nat)
    (parse_strings : bool) (w : world) :
  (forall r, r ∈ records -> is_Some (heap w !! r)) ->
  Records.create self records parse_strings w
  = Client.request (client self) "POST" (VStr "")
      {| params := Some (if parse_strings then []
                         else [("noparse", VStr "true")]);
         json := Some (VDict [("records",
                   VList (map (fun r => VDict [("fields",
                                  VDict (default [] (heap w !! r)))])
                            records))]);
         allow_redirects := None |} w /\
  heap (Records.create self records parse_strings w).2 = heap w.
Proof.
  intros Hall. split; [| apply create_heap].
  unfold Records.create. unfold mbind at 1, M_bind at 1.
  rewrite sent_create_all by done. by destruct parse_strings.
Qed.

Lemma create_payload_witness :
  let recs := Table.Records (Doc.Table (GristAPI.Doc root (VInt 789)) (VStr "Table1")) in
  let h : gmap nat pydict := {[ 0%nat := [("id", VInt 1); ("age", VInt 4)] ]} in
  let w := world0 (always {| status_code := 200; body_json := Some VNone |}) h in
  heap (Records.create recs [0%nat; 0%nat] false w).2 = h.
Proof.
  intros recs h w.
  apply (proj2 (create_payload recs [0%nat; 0%nat] false w
    ltac:(intros r Hr; apply elem_of_cons in Hr as [-> | Hr];
            [by eexists |];
          apply elem_of_cons in Hr as [-> | Hr]; [by eexists |];
          by apply elem_of_nil in Hr))).
Defined.

Lemma pop_repeated records : forall w,
  (forall r, r ∈ records -> is_Some (heap w !! r)) ->
  ~ NoDup records ->
  exists w',
    for_each Records.pop_id records w = (Raise (KeyError "id"), w') /\
    trace w' = trace w /\ calls w' = calls w.
Proof.
  induction records as [|r0 records IH]; intros w Hall Hdup.
  - destruct Hdup. apply NoDup_nil_2.
  - rewrite for_each_cons, pop_id_eq.
    destruct (Hall r0 ltac:(left)) as [d0 Hd0]. rewrite Hd0.
    destruct (dict_lookup "id" d0) as [v |] eqn:Hv; [| by exists w].
    assert (Hall' : forall r, r ∈ records ->
              is_Some (heap (set_heap (<[r0:=dict_remove "id" d0]> (heap w)) w) !! r)).
    { intros r Hr. simpl. rewrite lookup_insert. case_decide; [done |].
      apply Hall. by right. }
    destruct (decide (r0 ∈ records)) as [Hin | Hnotin].
    + destruct (pop_missing records _ Hall') as (w' & -> & Ht & Hc).
      * exists r0, (dict_remove "id" d0). split; [done |]. simpl.
        rewrite lookup_insert_eq. split; [done | apply dict_remove_lookup].
      * by exists w'.
    + destruct (IH _ Hall') as (w' & -> & Ht & Hc).
      * intros Hnd. apply Hdup. by apply NoDup_cons.
      * by exists w'.
Qed.

(** X15.  A dictionary listed twice makes [modify] fail: the first visit takes
    its identifying key away, the second finds none and raises [KeyError],
    and nothing is sent. *)
Theorem modify_repeated_record (self : APIBase) (records : list nat)
    (parse_strings : bool) (w : world) :
  (forall r, r ∈ records -> is_Some (heap w !! r)) ->
  ~ NoDup records ->
  exists w',
    Records.modify self records parse_strings w = (Raise (KeyError "id"), w') /\
    trace w' = trace w /\ calls w' = calls w.
Proof.
  intros Hall Hdup.
  destruct (pop_repeated records w Hall Hdup) as (w' & Hpop & Ht & Hc).
  exists w'. unfold Records.modify, mbind, M_bind. by rewrite Hpop.
Qed.

Lemma modify_repeated_record_witness :
  let recs := Table.Records (Doc.Table (GristAPI.Doc root (VInt 789)) (VStr "Table1")) in
  let h : gmap nat pydict := {[ 0%nat := [("id", VInt 1); ("age", VInt 4)] ]} in
  let w := world0 (always {| status_code := 200; body_json := Some VNone |}) h in
  exists w', Records.modify recs [0%nat; 0%nat] true w = (Raise (KeyError "id"), w') /\
             trace w' = [] /\ calls w' = 0%nat.
Proof.
  intros recs h w.
  apply (modify_repeated_record recs [0%nat; 0%nat] true w).
  - intros r Hr. apply elem_of_cons in Hr as [-> | Hr]; [by eexists |].
    apply elem_of_cons in Hr as [-> | Hr]; [by eexists |].
    by apply elem_of_nil in Hr.
  - intros [Hnotin _]%NoDup_cons. apply Hnotin. left.
Defined.

Lemma request_skipped c method url kw w :
  skipped c method = true ->
  Client.request c method url kw w
  = (Ok VNone,
     emit (EvLog Info "DRYRUN NOT sending %s request to %s"
             [LStr method; LStr (request_url c url)]) w).
Proof.
  intros H. unfold Client.request, retry. simpl.
  by rewrite request_body_skipped.
Qed.

Lemma request_url_empty c : request_url c (VStr "") = Client.full_url c.
Proof.
  unfold request_url. rewrite join_urls_cores.
  unfold join_cores. simpl. rewrite sapp_empty_r.
  unfold Client.full_url. apply join_urls_rstrip.
Qed.

Lemma modify_sends records self parse_strings w :
  (forall r, r ∈ records -> is_Some (heap w !! r)) ->
  NoDup records ->
  (forall r d, r ∈ records -> heap w !! r = Some d ->
               is_Some (dict_lookup "id" d)) ->
  Records.modify self records parse_strings w
  = Client.patch (client self) (VStr "")
      (Records.send_kwargs (map (hoisted (heap w)) records) parse_strings)
      (set_heap (popped (heap w) records) w).
Proof.
  intros Hall Hnd Hid.
  unfold Records.modify. unfold mbind at 1, M_bind at 1.
  rewrite (pop_all records w Hnd Hid Hall).
  unfold mbind at 1, M_bind at 1. rewrite read_all.
  - f_equal. f_equal. rewrite map_map. apply map_ext_in.
    intros r Hr%list_elem_of_In. simpl.
    destruct (Hall r Hr) as [d Hd]. unfold hoisted. rewrite Hd.
    by rewrite (popped_lookup_in records _ r d Hnd Hr Hd).
  - intros env [r [-> Hr]]%list_elem_of_fmap. simpl.
    destruct (Hall r Hr) as [d Hd].
    by rewrite (popped_lookup_in records _ r d Hnd Hr Hd).
Qed.

(** X16.  In dry-run mode [modify] sends nothing and returns [None], and yet
    takes the identifying key out of every dictionary of the caller. *)
Theorem modify_dryrun (self : APIBase) (records : list nat)
    (parse_strings : bool) (w : world) :
  dryrun (client self) = true ->
  (forall r, r ∈ records -> is_Some (heap w !! r)) ->
  NoDup records ->
  (forall r d, r ∈ records -> heap w !! r = Some d ->
               is_Some (dict_lookup "id" d)) ->
  Records.modify self records parse_strings w
  = (Ok VNone,
     emit (EvLog Info "DRYRUN NOT sending %s request to %s"
             [LStr "PATCH"; LStr (Client.full_url (client self))])
       (set_heap (popped (heap w) records) w)) /\
  forall r d, r ∈ records -> heap w !! r = Some d ->
    heap (Records.modify self records parse_strings w).2 !! r
    = Some (dict_remove "id" d).
Proof.
  intros Hdry Hall Hnd Hid.
  assert (E : Records.modify self records parse_strings w
              = (Ok VNone,
                 emit (EvLog Info "DRYRUN NOT sending %s request to %s"
                         [LStr "PATCH"; LStr (Client.full_url (client self))])
                   (set_heap (popped (heap w) records) w))).
  { rewrite modify_sends by done. unfold Client.patch.
    rewrite request_skipped by (unfold skipped; by rewrite Hdry).
    by rewrite request_url_empty. }
  split; [exact E |]. intros r d Hr Hd. rewrite E. simpl.
  by apply popped_lookup_in.
Qed.

Lemma modify_dryrun_witness :
  let recs := {| client := Client_init default_server "/api/docs/1/tables/T/records" 0 true |} in
  let h : gmap nat pydict := {[ 0%nat := [("id", VInt 1); ("age", VInt 4)] ]} in
  let w := world0 (always {| status_code := 200; body_json := Some VNone |}) h in
  heap (Records.modify recs [0%nat] true w).2 !! 0%nat = Some [("age", VInt 4)].
Proof.
  intros recs h w.
  apply (proj2 (modify_dryrun recs [0%nat] true w eq_refl
    ltac:(intros r Hr; apply elem_of_cons in Hr as [-> | Hr]; [by eexists |];
          by apply elem_of_nil in Hr)
    ltac:(by apply (bool_decide_unpack (NoDup [0%nat])))
    ltac:(intros r d Hr; apply elem_of_cons in Hr as [-> | Hr];
            [intros [= <-]; by eexists | by apply elem_of_nil in Hr]))
    0%nat [("id", VInt 1); ("age", VInt 4)]).
  - left.
  - reflexivity.
Defined.

(** X17.  In dry-run mode [Client.delete] logs that it is sending the request,
    then that it is not, sends nothing and returns [None]; the first line
    shows the cursor joined with the path, not the full URL. *)
Theorem delete_dryrun (c : Client) (url : value) (kw : kwargs) (w : world) :
  dryrun c = true ->
  Client.delete c url kw w
  = (Ok VNone,
     emit (EvLog Info "DRYRUN NOT sending %s request to %s"
             [LStr "DELETE"; LStr (request_url c url)])
       (emit (EvLog Info "Sending DELETE request to %s"
                [LStr (join_urls (base_url c) [url])]) w)).
Proof.
  intros Hdry. unfold Client.delete, mbind, M_bind, log.
  apply request_skipped. unfold skipped. by rewrite Hdry.
Qed.

Lemma delete_dryrun_witness :
  calls (Client.delete (Client_init default_server "/api/docs/7" 0 true)
           (VStr "") no_kwargs
           (world0 (always {| status_code := 200; body_json := None |}) ∅)).2
  = 0%nat.
Proof.
  rewrite (delete_dryrun (Client_init default_server "/api/docs/7" 0 true)
             (VStr "") no_kwargs _ eq_refl).
  reflexivity.
Defined.

(** * Every run of a call *)

(** A call that is not skipped stops at its first attempt that does not
    fail retryably, or at the fifth. *)
Lemma request_shape c method url kw w :
  skipped c method = false ->
  exists k, (k <= 4)%nat /\
    (forall i, (i < k)%nat ->
       retryable (answer w (request_of c method url kw) i) = true) /\
    (k = 4%nat \/ retryable (answer w (request_of c method url kw) k) = false) /\
    Client.request c method url kw w
    = (attempt_result (request_url c url)
         (answer w (request_of c method url kw) k),
       after_attempts w (request_of c method url kw)
         (failures w (request_of c method url kw) k)).
Proof.
  intros Hlive. set (req := request_of c method url kw).
  assert (Hfind : exists k, (k <= 4)%nat /\
            (forall i, (i < k)%nat -> retryable (answer w req i) = true) /\
            (k = 4%nat \/ retryable (answer w req k) = false)).
  { destruct (retryable (answer w req 0)) eqn:E0;
      [| exists 0%nat; repeat split; [lia | intros; lia | by right]].
    destruct (retryable (answer w req 1)) eqn:E1;
      [| exists 1%nat; repeat split;
         [lia | intros [|i] Hi; [done | lia] | by right]].
    destruct (retryable (answer w req 2)) eqn:E2;
      [| exists 2%nat; repeat split;
         [lia | intros [|[|i]] Hi; [done | done | lia] | by right]].
    destruct (retryable (answer w req 3)) eqn:E3;
      [| exists 3%nat; repeat split;
         [lia | intros [|[|[|i]]] Hi; [done | done | done | lia] | by right]].
    exists 4%nat; repeat split;
      [lia | intros [|[|[|[|i]]]] Hi; [done | done | done | done | lia]
      | by left]. }
  destruct Hfind as (k & Hk & Hfail & Hlast).
  exists k. repeat split; try done. by apply request_run.
Qed.

Lemma count_app p l1 l2 : count p (l1 ++ l2)%list = (count p l1 + count p l2)%nat.
Proof. unfold count. by rewrite filter_app, length_app. Qed.

Lemma count_failed p req errors :
  count p (flat_map (fun e => (attempt_events req ++ retry_events e)%list) errors)
  = (length errors *
     (count p (attempt_events req) +
      if p (EvSleep 1) then 1 else 0) +
     count p (map (fun e => EvLog Warn "Failed with error %r, trying again"
                              [LExn e]) errors))%nat.
Proof.
  induction errors as [|e errors IH]; [done |].
  change (flat_map (fun e => (attempt_events req ++ retry_events e)%list) (e :: errors))
    with ((attempt_events req ++ retry_events e)
          ++ flat_map (fun e => (attempt_events req ++ retry_events e)%list) errors)%list.
  rewrite !count_app, IH. simpl map.
  change (EvLog Warn "Failed with error %r, trying again" [LExn e]
          :: map (fun e => EvLog Warn "Failed with error %r, trying again" [LExn e])
               errors)
    with ([EvLog Warn "Failed with error %r, trying again" [LExn e]]
          ++ map (fun e => EvLog Warn "Failed with error %r, trying again" [LExn e])
               errors)%list.
  rewrite count_app. unfold retry_events.
  change [EvLog Warn "Failed with error %r, trying again" [LExn e]; EvSleep 1]
    with ([EvLog Warn "Failed with error %r, trying again" [LExn e]]
          ++ [EvSleep 1])%list.
  rewrite count_app.
  assert (Hs : count p [EvSleep 1] = if p (EvSleep 1) then 1%nat else 0%nat).
  { unfold count. rewrite filter_cons. by destruct (p (EvSleep 1)). }
  rewrite Hs. simpl length. lia.
Qed.

Lemma in_failed ev req errors :
  In ev (flat_map (fun e => (attempt_events req ++ retry_events e)%list) errors
         ++ attempt_events req) ->
  In ev (attempt_events req) \/ exists e, In ev (retry_events e).
Proof.
  rewrite in_app_iff, in_flat_map.
  intros [(e & _ & [H | H]%in_app_iff) | H]; eauto.
Qed.

Lemma request_delta (c : Client) (method : string) (url : value)
    (kw : kwargs) (w : world) :
  let w' := (Client.request c method url kw w).2 in
  heap w' = heap w /\
  exists delta,
    trace w' = (trace w ++ delta)%list /\
    (forall req, In (EvRequest req) delta -> req = request_of c method url kw) /\
    (forall s, In (EvSleep s) delta -> s = 1) /\
    (count is_sleep delta <= 4)%nat /\
    count is_warning delta = count is_sleep delta /\
    calls w' = (calls w + count is_request delta)%nat /\
    (count is_request delta = 0%nat /\ count is_sleep delta = 0%nat \/
     count is_request delta = S (count is_sleep delta)).
Proof.
  intros w'. subst w'. split; [apply request_heap |].
  destruct (skipped c method) eqn:Hskip.
  - rewrite request_skipped by done. eexists. split; [reflexivity |].
    split; [by intros ? [[=] | []] |]. split; [by intros ? [[=] | []] |].
    split; [unfold count; simpl; lia |]. split; [done |].
    split; [unfold count; simpl; lia | by left].
  - destruct (request_shape c method url kw w Hskip) as (k & Hk & _ & _ & ->).
    set (req := request_of c method url kw).
    exists (flat_map (fun e => (attempt_events req ++ retry_events e)%list)
              (failures w req k) ++ attempt_events req)%list.
    split; [done |].
    assert (Hw : forall es : list exn,
              count is_warning
                (map (fun e => EvLog Warn "Failed with error %r, trying again"
                                 [LExn e]) es) = length es).
    { induction es as [|e es IH]; [done |]. unfold count in *.
      rewrite map_cons, filter_cons_True by done. simpl. by rewrite IH. }
    assert (Hn : forall (p : event -> bool) (es : list exn),
              (forall ev, p ev = true -> is_warning ev = false) ->
              count p
                (map (fun e => EvLog Warn "Failed with error %r, trying again"
                                 [LExn e]) es) = 0%nat).
    { intros p es Hp. induction es as [|e es IH]; [done |]. unfold count in *.
      rewrite map_cons, filter_cons_False; [exact IH |].
      intros E. by apply Hp in E. }
    rewrite !count_app, !count_failed, Hw, !Hn, failures_length;
      [| by intros [] | by intros []].
    split; [| split; [| split; [| split; [| split]]]].
    + intros r Hr. apply in_failed in Hr as [[Hr | [Hr | []]] | (e & [Hr | [Hr | []]])];
        congruence.
    + intros s Hs. apply in_failed in Hs as [[Hs | [Hs | []]] | (e & [Hs | [Hs | []]])];
        congruence.
    + unfold count. simpl. lia.
    + unfold count. simpl. lia.
    + unfold count. simpl. rewrite failures_length. lia.
    + right. unfold count. simpl. lia.
Qed.

(** X18.  Whatever the session answers, a call only adds to the trace, leaves the
    caller's dictionaries alone, sends the same request (same verb, URL and
    keyword arguments) at every attempt, and pauses at most four times, one
    second each time, once after every warning and one time fewer than it
    sends a request when it sends any. *)
Theorem request_footprint (c : Client) (method : string) (url : value)
    (kw : kwargs) (w : world) :
  let w' := (Client.request c method url kw w).2 in
  heap w' = heap w /\
  exists delta,
    trace w' = (trace w ++ delta)%list /\
    (forall req, In (EvRequest req) delta -> req = request_of c method url kw) /\
    (forall s, In (EvSleep s) delta -> s = 1) /\
    (count is_sleep delta <= 4)%nat /\
    count is_warning delta = count is_sleep delta /\
    calls w' = (calls w + count is_request delta)%nat /\
    (count is_request delta = 0%nat /\ count is_sleep delta = 0%nat \/
     count is_request delta = S (count is_sleep delta)).
Proof. apply request_delta. Qed.

(** X19.  Redirects: every request a GET or an OPTIONS sends allows redirects and
    every request a HEAD sends forbids them, unless the caller said
    otherwise, in which case the caller's choice goes out; the other
    keyword arguments go out as they came. *)
Theorem redirect_defaults (c : Client) (url : value) (kw : kwargs) (w : world)
    (req : http_request) :
  let sent (call : M value) :=
    exists delta, trace (call w).2 = (trace w ++ delta)%list /\
                  In (EvRequest req) delta in
  let same_but b :=
    params (req_kwargs req) = params kw /\
    json (req_kwargs req) = json kw /\
    allow_redirects (req_kwargs req) = Some (default b (allow_redirects kw)) in
  (sent (Client.get c url kw) -> req_method req = "GET" /\ same_but true) /\
  (sent (Client.options c url kw) ->
   req_method req = "OPTIONS" /\ same_but true) /\
  (sent (Client.head c url kw) -> req_method req = "HEAD" /\ same_but false).
Proof.
  intros sent same_but. subst sent same_but.
  assert (H : forall method kw',
            (exists delta,
               trace (Client.request c method url kw' w).2 = (trace w ++ delta)%list /\
               In (EvRequest req) delta) ->
            req = request_of c method url kw').
  { intros method kw' (delta & Ht & Hin).
    destruct (request_delta c method url kw' w) as (_ & delta' & Ht' & Hreq & _).
    rewrite Ht' in Ht. apply app_inv_head in Ht as <-. by apply Hreq. }
  unfold Client.get, Client.options, Client.head.
  split; [| split]; intros Hs; rewrite (H _ _ Hs); by repeat split.
Qed.

Lemma redirect_defaults_witness :
  let c := Client_init default_server default_base_url 0 false in
  let w := world0 (always {| status_code := 200; body_json := Some VNone |}) ∅ in
  let req := request_of c "HEAD" (VStr "docs/7")
               (setdefault_allow_redirects false no_kwargs) in
  allow_redirects (req_kwargs req) = Some false.
Proof.
  intros c w req.
  destruct (redirect_defaults c (VStr "docs/7") no_kwargs w req) as (_ & _ & H).
  destruct H as (_ & _ & _ & H).
  - eexists. split; [reflexivity |]. right. left. reflexivity.
  - exact H.
Defined.

Lemma attempt_ok_inv url o v :
  attempt_result url o = Ok v ->
  exists r, o = NetResponse r /\ succeeds r v.
Proof.
  destruct o as [e | r]; [done |]. simpl.
  destruct (Client.is_retry_status (status_code r)) eqn:Hs; [done |].
  destruct (body_json r) as [v' |] eqn:Hb; [| done].
  destruct (Str.contains "SQLITE_BUSY" (py_str (Client.error_field v'))) eqn:Hbusy;
    [done |].
  destruct (truthy (Client.error_field v') || negb (response_ok r)) eqn:Herr;
    [done |].
  intros [= <-]. exists r. split; [done |].
  apply orb_false_iff in Herr as [Ht Hok%negb_false_iff]. by repeat split.
Qed.

(** X20.  A call returns a value only in two ways: [None] for a request the
    dry-run switch held back, or what one of its at most five answers
    parsed to, that answer being a response outside 502, 503 and 504 and
    400 to 599 whose error field is falsy and free of the contention
    marker. *)
Theorem request_returns_only_success (c : Client) (method : string)
    (url : value) (kw : kwargs) (w : world) (v : value) :
  (Client.request c method url kw w).1 = Ok v ->
  (skipped c method = true /\ v = VNone) \/
  (skipped c method = false /\
   exists i r, (i <= 4)%nat /\
     answer w (request_of c method url kw) i = NetResponse r /\
     succeeds r v).
Proof.
  destruct (skipped c method) eqn:Hskip.
  - rewrite request_skipped by done. intros [= <-]. by left.
  - destruct (request_shape c method url kw w Hskip) as (k & Hk & _ & _ & ->).
    intros (r & Hr & Hok)%attempt_ok_inv. right. split; [done |].
    by exists k, r.
Qed.

Lemma request_returns_only_success_witness :
  let c := Client_init default_server default_base_url 0 true in
  let w := world0 (always {| status_code := 500; body_json := None |}) ∅ in
  skipped c "PUT" = true.
Proof.
  intros c w.
  destruct (request_returns_only_success c "PUT" (VStr "") no_kwargs w VNone
              eq_refl) as [[H _] | [H _]]; [exact H | discriminate H].
Defined.

(** X21.  A failure raised by the session that is not a [ConnectionError] ends
    the call at once: it is raised as it is, with no warning, no pause and
    no further attempt after it. *)
Theorem session_error_not_retried (c : Client) (method : string) (url : value)
    (kw : kwargs) (w : world) (k : nat) (e : exn) :
  skipped c method = false ->
  (k <= 4)%nat ->
  (forall i, (i < k)%nat ->
     retryable (answer w (request_of c method url kw) i) = true) ->
  answer w (request_of c method url kw) k = NetRaise e ->
  is_ConnectionError e = false ->
  Client.request c method url kw w
  = (Raise e,
     after_attempts w (request_of c method url kw)
       (failures w (request_of c method url kw) k)).
Proof.
  intros Hlive Hk Hfail He Hce.
  rewrite (request_run c method url kw w k Hlive Hk Hfail).
  - by rewrite He.
  - right. rewrite He. unfold retryable. simpl. by rewrite Hce.
Qed.

Lemma session_error_not_retried_witness :
  let c := Client_init default_server default_base_url 0 false in
  let w := world0 (fun _ _ => NetRaise (OtherError "ReadTimeout")) ∅ in
  Client.request c "GET" (VStr "orgs") no_kwargs w
  = (Raise (OtherError "ReadTimeout"),
     after_attempts w (request_of c "GET" (VStr "orgs") no_kwargs) []).
Proof.
  intros c w.
  apply (session_error_not_retried c "GET" (VStr "orgs") no_kwargs w 0);
    [reflexivity | lia | intros i Hi; lia | reflexivity | reflexivity].
Defined.

(** X22.  An API error that a call raises, not one the session itself threw,
    carries the URL the call was sent to, one of the responses the session
    gave, whose status is not 502, 503 or 504, and that response's parsed
    body; it has a message, Failed to parse JSON, exactly when there is no
    parsed body; and it prints as the URL, the status code and, on the next
    line, that message or else the pretty-printed body. *)
Theorem api_error_report (pformat : option value -> string) (c : Client)
    (method : string) (url : value) (kw : kwargs) (w : world)
    (u : string) (r : Response) (j : option value) (m : option string) :
  (Client.request c method url kw w).1 = Raise (APIError u r j m) ->
  (forall i, answer w (request_of c method url kw) i
             <> NetRaise (APIError u r j m)) ->
  u = request_url c url /\
  (exists i, (i <= 4)%nat /\
             answer w (request_of c method url kw) i = NetResponse r) /\
  Client.is_retry_status (status_code r) = false /\
  j = body_json r /\
  m = match body_json r with
      | None => Some "Failed to parse JSON"
      | Some _ => None
      end /\
  APIError_str pformat u r j m
  = "Error at " +:+ request_url c url +:+ ", code "
    +:+ Str.of_Z (status_code r) +:+ ":"
    +:+ String (Ascii.ascii_of_nat 10) ""
    +:+ match body_json r with
        | None => "Failed to parse JSON"
        | Some v => pformat (Some v)
        end.
Proof.
  destruct (skipped c method) eqn:Hskip;
    [by rewrite request_skipped |].
  destruct (request_shape c method url kw w Hskip) as (k & Hk & _ & _ & ->).
  simpl. intros Hres Hnot.
  destruct (answer w (request_of c method url kw) k) as [e | r'] eqn:Ha.
  - simpl in Hres. injection Hres as ->. by destruct (Hnot k).
  - simpl in Hres.
    destruct (Client.is_retry_status (status_code r')) eqn:Hs; [done |].
    destruct (body_json r') as [v |] eqn:Hb.
    + destruct (Str.contains "SQLITE_BUSY" (py_str (Client.error_field v)));
        [done |].
      destruct (truthy (Client.error_field v) || negb (response_ok r'));
        [| done].
      injection Hres as <- <- <- <-.
      rewrite Hb. repeat split; try done. by exists k.
    + injection Hres as <- <- <- <-.
      rewrite Hb. repeat split; try done. by exists k.
Qed.

Lemma api_error_report_witness :
  let c := Client_init default_server default_base_url 0 false in
  let r := {| status_code := 404; body_json := None |} in
  let w := world0 (always r) ∅ in
  APIError_str (fun _ => "") "https://docs.getgrist.com/api/docs/7" r None
    (Some "Failed to parse JSON")
  = "Error at https://docs.getgrist.com/api/docs/7, code 404:"
    +:+ String (Ascii.ascii_of_nat 10) "" +:+ "Failed to parse JSON".
Proof.
  intros c r w.
  destruct (api_error_report (fun _ => "") c "GET" (VStr "docs/7") no_kwargs w
              "https://docs.getgrist.com/api/docs/7" r None
              (Some "Failed to parse JSON") eq_refl
              ltac:(intros i; discriminate)) as (_ & _ & _ & _ & _ & H).
  rewrite H. reflexivity.
Defined.

Lemma contains_sapp sub a b : Str.contains sub (a +:+ sub +:+ b) = true.
Proof.
  induction a as [|c a IH].
  - change ("" +:+ sub +:+ b) with (sub +:+ b).
    pose proof (prefix_sapp sub b) as H.
    destruct (sub +:+ b) as [|c' x];
      [change (Str.contains sub "") with (String.prefix sub "" || false)
      | change (Str.contains sub (String c' x))
          with (String.prefix sub (String c' x) || Str.contains sub x)];
      by rewrite H.
  - rewrite sapp_cons. simpl. rewrite IH. apply orb_true_r.
Qed.

(** X23.  The contention marker counts wherever it stands in the error text: a
    mapping whose error field is a string with SQLITE_BUSY anywhere in it
    makes the attempt a retryable failure, a [ConnectionError], whatever
    the status. *)
Theorem busy_marker_anywhere (c : Client) (method : string) (url : value)
    (kw : kwargs) (w : world) (r : Response) (d : pydict) (a b : string) :
  body_json r = Some (VDict d) ->
  dict_lookup "error" d = Some (VStr (a +:+ "SQLITE_BUSY" +:+ b)) ->
  skipped c method = false ->
  answer w (request_of c method url kw) 0 = NetResponse r ->
  retryable (NetResponse r) = true /\
  exists msg,
    Client.request_body c method url kw w
    = (Raise (ConnectionError msg),
       after_attempts w (request_of c method url kw) []).
Proof.
  intros Hb Hd Hlive Ha.
  assert (Hbusy : busy (NetResponse r) = true).
  { unfold busy, busy_body. rewrite Hb. unfold dict_get. rewrite Hd.
    apply contains_sapp. }
  pose proof (busy_retryable _ Hbusy) as Hr. split; [exact Hr |].
  rewrite request_body_live, Ha by done.
  destruct (retryable_result (request_url c url) _ Hr) as [-> Hce].
  destruct (failure_error (NetResponse r)) as [msg | | |]; try done.
  by exists msg.
Qed.

Lemma busy_marker_anywhere_witness :
  let c := Client_init default_server default_base_url 0 false in
  let r := {| status_code := 200;
              body_json := Some (VDict [("error",
                VStr "Error: SQLITE_BUSY: database is locked")]) |} in
  retryable (NetResponse r) = true.
Proof.
  intros c r.
  apply (busy_marker_anywhere c "POST" (VStr "") no_kwargs
           (world0 (always r) ∅) r
           [("error", VStr "Error: SQLITE_BUSY: database is locked")]
           "Error: " ": database is locked");
    reflexivity.
Defined.

(** * The decorator with any budget *)





(** * Credentials *)

Lemma rstrip_space_cons c s :
  rstrip_space (String c s) =
  match rstrip_space s with
  | EmptyString => if is_space c then EmptyString else String c EmptyString
  | r => String c r
  end.
Proof. reflexivity. Qed.

Lemma rstrip_space_idem s : rstrip_space (rstrip_space s) = rstrip_space s.
Proof.
  induction s as [|c s IH]; [done |].
  rewrite rstrip_space_cons. destruct (rstrip_space s) as [|c' r] eqn:E.
  - destruct (is_space c) eqn:Ec; [done |].
    by rewrite rstrip_space_cons, Ec.
  - by rewrite rstrip_space_cons, IH.
Qed.

Lemma lstrip_space_idem s : lstrip_space (lstrip_space s) = lstrip_space s.
Proof.
  induction s as [|c s IH]; [done |]. simpl.
  destruct (is_space c) eqn:E; [done |]. simpl. by rewrite E.
Qed.

Lemma strip_space_comm s :
  rstrip_space (lstrip_space s) = lstrip_space (rstrip_space s).
Proof.
  induction s as [|c s IH]; [done |].
  rewrite rstrip_space_cons. simpl lstrip_space at 1.
  destruct (is_space c) eqn:Ec.
  - rewrite IH. destruct (rstrip_space s); [done |]. simpl. by rewrite Ec.
  - rewrite rstrip_space_cons.
    destruct (rstrip_space s); simpl; by rewrite Ec.
Qed.

Lemma py_strip_clean s :
  lstrip_space (py_strip s) = py_strip s /\
  rstrip_space (py_strip s) = py_strip s.
Proof.
  unfold py_strip. split; [| apply rstrip_space_idem].
  by rewrite strip_space_comm, lstrip_space_idem.
Qed.

(** X25.  Where a new client gets its key and its session.  With no session
    handed in, a session is made and its Authorization header is Bearer
    followed by the explicit key when that is not empty, else by the
    GRIST_API_KEY variable when that is set and not empty, else by the text
    of the key file without the white space around it; with none of the
    three the constructor raises [KeyError], the new session already made.
    With a session handed in, that session is used, none is made and no key
    is looked for, unless a non-empty key comes with it, which is refused. *)
Theorem client_new_credentials (env : environment)
    (dh : list (string * string)) (srv base : string)
    (api_key : option string) (k text : string) (s : nat) (dry : bool)
    (ss : sessions) :
  let made key :=
    (Ok (Client_init srv base (length ss) dry),
     (ss ++ [header_set "Authorization" ("Bearer " +:+ key) dh])%list) in
  (k <> "" -> Client_new env dh srv base (Some k) None dry ss = made k) /\
  (api_key = None \/ api_key = Some "" ->
   (k <> "" -> env_GRIST_API_KEY env = Some k ->
    Client_new env dh srv base api_key None dry ss = made k) /\
   (env_GRIST_API_KEY env = None \/ env_GRIST_API_KEY env = Some "" ->
    (key_file env = Some text ->
     Client_new env dh srv base api_key None dry ss = made (py_strip text) /\
     lstrip_space (py_strip text) = py_strip text /\
     rstrip_space (py_strip text) = py_strip text) /\
    (key_file env = None ->
     Client_new env dh srv base api_key None dry ss
     = (Raise (KeyError
                 ("Grist API key not found in GRIST_API_KEY env, nor in "
                  +:+ key_path env)),
        (ss ++ [dh])%list))) /\
   Client_new env dh srv base api_key (Some s) dry ss
   = (Ok (Client_init srv base s dry), ss)) /\
  (k <> "" ->
   Client_new env dh srv base (Some k) (Some s) dry ss
   = (Raise (OtherError "AssertionError"), ss)).
Proof.
  intros made. subst made. split; [| split].
  - intros Hk. by destruct k.
  - intros Hkey. split; [| split].
    + intros Hk Henv. unfold Client_new, get_api_key. rewrite Henv.
      destruct k; [done |]. by destruct Hkey as [-> | ->].
    + intros Henv. split.
      * intros Hfile. split; [| apply py_strip_clean].
        unfold Client_new, get_api_key. rewrite Hfile.
        by destruct Hkey as [-> | ->], Henv as [-> | ->].
      * intros Hfile. unfold Client_new, get_api_key. rewrite Hfile.
        by destruct Hkey as [-> | ->], Henv as [-> | ->].
    + by destruct Hkey as [-> | ->].
  - intros Hk. by destruct k.
Qed.

Lemma client_new_credentials_witness :
  let env := {| env_GRIST_API_KEY := Some "";
                key_path := "/home/u/.grist-api-key";
                key_file := Some (" abc123" +:+ String (Ascii.ascii_of_nat 10) "") |} in
  Client_new env [] default_server default_base_url None None false []
  = (Ok (Client_init default_server default_base_url 0 false),
     [[("Authorization", "Bearer abc123")]]).
Proof.
  intros env.
  destruct (client_new_credentials env [] default_server default_base_url
              None "" (" abc123" +:+ String (Ascii.ascii_of_nat 10) "")
              0 false []) as (_ & H & _).
  destruct (H ltac:(by left)) as (_ & H' & _).
  destruct (H' ltac:(by right)) as [H'' _].
  destruct (H'' eq_refl) as [-> _]. reflexivity.
Defined.


(** * The doctests *)

(** The doctest client shows the request the real client would send. *)
Lemma DocTestClient_shows c method url kw :
  DocTestClient_request c method url kw = shown (request_of c method url kw).
Proof. reflexivity. Qed.

(** X26.  The doctests of the module hold: for every example in the docstrings of
    the proxy classes, the request the call sends prints as the docstring
    says. *)
Theorem doctests_hold :
  let users := Some (VDict [("user1", VStr "owners")]) in
  let q := String Str.dquote "" in
  let api := "https://docs.getgrist.com/api" in
  [ doctest ∅ (Orgs.list (GristAPI.Orgs root));
    doctest ∅ (Org.describe test_org);
    doctest ∅ (Org.modify test_org (VStr "New Name"));
    doctest ∅ (Org.delete test_org);
    doctest ∅ (WithAccess.list_users test_org);
    doctest ∅ (Org.update_user_access test_org (VDict [("user1", VStr "owners")]));
    doctest ∅ (Workspaces.list (Org.Workspaces test_org));
    doctest ∅ (Workspaces.create (Org.Workspaces test_org) (VStr "Test Workspace"));
    doctest ∅ (Workspace.describe test_workspace);
    doctest ∅ (Workspace.modify test_workspace (VStr "New Name"));
    doctest ∅ (Workspace.delete test_workspace);
    doctest ∅ (WithAccess.list_users test_workspace);
    doctest ∅ (WithAccess.update_user_access test_workspace users None);
    doctest ∅ (Docs.create (Workspace.Docs test_workspace) (VStr "Test Doc") (VBool false));
    doctest ∅ (Doc.describe test_doc);
    doctest ∅ (Doc.modify test_doc (Some (VStr "New Name")) None);
    doctest ∅ (Doc.delete test_doc);
    doctest ∅ (WithAccess.list_users test_doc);
    doctest ∅ (WithAccess.update_user_access test_doc users None);
    doctest ∅ (Doc.move test_doc (VInt 456));
    doctest ∅ (Doc.download test_doc);
    doctest ∅ (Doc.download_xlsx test_doc);
    doctest ∅ (Doc.download_csv test_doc (VStr "Table1"));
    doctest ∅ (Table.columns test_table);
    doctest ∅ (Table.download_csv test_table);
    doctest ∅ (WithListRecords.list test_records
                 (Some (VDict [("pet", VList [VStr "cat"; VStr "dog"])]))
                 (Some (VStr "pet,-age")) (Some (VInt 5)));
    doctest test_heap (Records.create test_records [0%nat; 1%nat] true);
    doctest test_heap (Records.modify test_records [2%nat] true);
    doctest ∅ (Records.create_or_modify test_records);
    doctest ∅ (Records.delete test_records);
    doctest ∅ (WithListRecords.list test_attachments None None None);
    doctest ∅ (Attachments.create test_attachments);
    doctest ∅ (Attachment.describe test_attachment);
    doctest ∅ (Attachment.download test_attachment) ]
  =
  [ output ("GET " +:+ api +:+ "/orgs") [];
    output ("GET " +:+ api +:+ "/orgs/123") [];
    output ("PATCH " +:+ api +:+ "/orgs/123") ["json={'name': 'New Name'}"];
    output ("DELETE " +:+ api +:+ "/orgs/123") [];
    output ("GET " +:+ api +:+ "/orgs/123/access") [];
    output ("PATCH " +:+ api +:+ "/orgs/123/access")
      ["json={'delta': {'users': {'user1': 'owners'}}}"];
    output ("GET " +:+ api +:+ "/orgs/123/workspaces") [];
    output ("POST " +:+ api +:+ "/orgs/123/workspaces")
      ["json={'name': 'Test Workspace'}"];
    output ("GET " +:+ api +:+ "/workspaces/456") [];
    output ("PATCH " +:+ api +:+ "/workspaces/456") ["json={'name': 'New Name'}"];
    output ("DELETE " +:+ api +:+ "/workspaces/456") [];
    output ("GET " +:+ api +:+ "/workspaces/456/access") [];
    output ("PATCH " +:+ api +:+ "/workspaces/456/access")
      ["json={'delta': {'users': {'user1': 'owners'}}}"];
    output ("POST " +:+ api +:+ "/workspaces/456/docs")
      ["json={'name': 'Test Doc', 'isPinned': False}"];
    output ("GET " +:+ api +:+ "/docs/789") [];
    output ("PATCH " +:+ api +:+ "/docs/789") ["json={'name': 'New Name'}"];
    output ("DELETE " +:+ api +:+ "/docs/789") [];
    output ("GET " +:+ api +:+ "/docs/789/access") [];
    output ("PATCH " +:+ api +:+ "/docs/789/access")
      ["json={'delta': {'users': {'user1': 'owners'}}}"];
    output ("PATCH " +:+ api +:+ "/docs/789/move") ["json={'workspace': 456}"];
    output ("GET " +:+ api +:+ "/docs/789/download") [];
    output ("GET " +:+ api +:+ "/docs/789/download/xlsx") [];
    output ("GET " +:+ api +:+ "/docs/789/download/csv")
      ["params={'tableId': 'Table1'}"];
    output ("GET " +:+ api +:+ "/docs/789/tables/Table1/columns") [];
    output ("GET " +:+ api +:+ "/docs/789/download/csv")
      ["params={'tableId': 'Table1'}"];
    output ("GET " +:+ api +:+ "/docs/789/tables/Table1/records")
      ["params={'filters': '{" +:+ q +:+ "pet" +:+ q +:+ ": [" +:+ q +:+ "cat"
       +:+ q +:+ ", " +:+ q +:+ "dog" +:+ q
       +:+ "]}', 'sort_by': 'pet,-age', 'limit': 5}"];
    output ("POST " +:+ api +:+ "/docs/789/tables/Table1/records")
      ["json={'records': [{'fields': {'pet': 'cat', 'age': 3}}, "
       +:+ "{'fields': {'pet': 'dog', 'age': 5}}]}"];
    output ("PATCH " +:+ api +:+ "/docs/789/tables/Table1/records")
      ["json={'records': [{'id': 1, 'fields': {'age': 4}}]}"];
    output ("PUT " +:+ api +:+ "/docs/789/tables/Table1/records") [];
    output ("POST " +:+ api +:+ "/docs/789/tables/Table1/data/delete") [];
    output ("GET " +:+ api +:+ "/docs/789/attachments") [];
    output ("POST " +:+ api +:+ "/docs/789/attachments") [];
    output ("GET " +:+ api +:+ "/docs/789/attachments/123") [];
    output ("GET " +:+ api +:+ "/docs/789/attachments/123/download") [] ].
Proof. vm_compute. reflexivity. Qed.
